(** * claude_visualizer: the content-block renderers and the message assembler

    A shallow embedding of [claude_visualizer/visualizer.py] (with the two
    classes of [parser.py] and the colour scheme of [themes.py] it reads),
    and the properties of its renderers.

    Python strings are Rocq strings, one [ascii] per character, so [len] is
    [String.length]; characters above code point 255 are not represented.
    A Python exception is [None]: a renderer returns [Some] of the tree it
    has extended, or [None] when one of its statements raises. rich is not
    part of the repository: its constructors are recorded as calls, and
    whether [console.print] returns on what it is given is a parameter. *)

From Stdlib Require Import ZArith Ascii String.
From stdpp Require Import base option list strings pretty gmap.

Set Warnings "-register-all".

Local Open Scope string_scope.

(** ** Characters that a Rocq string literal cannot hold directly *)

Definition newline : ascii := "010"%char.
Definition dquote : ascii := "034"%char.
Definition squote : ascii := "039"%char.
Definition backslash : ascii := "092"%char.

Definition nl : string := String newline "".

(** ** Python values, as [json.loads] produces them *)

(** A float is kept as its [repr]: Python's [repr] of a float is the shortest
    decimal string that reads back as the same float, so it identifies the
    float ("0.0", "-0.0", "1.5", "1e+16", "nan", "inf", "-inf"). A dict is
    an association list in insertion order, looked up from the front. *)
Inductive value : Type :=
| VNone
| VBool (b : bool)
| VInt (z : Z)
| VFloat (r : string)
| VStr (s : string)
| VList (l : list value)
| VDict (d : list (string * value)).

Definition pydict : Type := list (string * value).

(** [d.get(key)] *)
Fixpoint dict_get (d : pydict) (key : string) : option value :=
  match d with
  | [] => None
  | (k, v) :: d' => if String.eqb k key then Some v else dict_get d' key
  end.

(** [d.get(key, dflt)] *)
Definition dict_get_default (d : pydict) (key : string) (dflt : value) : value :=
  default dflt (dict_get d key).

Definition float_is_zero (r : string) : bool :=
  String.eqb r "0.0" || String.eqb r "-0.0".

(** Truth value of an object, as [if x:] tests it. *)
Definition py_truthy (v : value) : bool :=
  match v with
  | VNone => false
  | VBool b => b
  | VInt z => negb (z =? 0)%Z
  | VFloat r => negb (float_is_zero r)
  | VStr s => negb (String.eqb s "")
  | VList l => match l with [] => false | _ => true end
  | VDict d => match d with [] => false | _ => true end
  end.

(** [x == 0] *)
Definition py_eq_zero (v : value) : bool :=
  match v with
  | VBool b => negb b
  | VInt z => (z =? 0)%Z
  | VFloat r => float_is_zero r
  | _ => false
  end.

(** [x == s] for a string literal [s]; [x] is [None] when a [.get] found
    nothing. *)
Definition py_eq_str (x : option value) (s : string) : bool :=
  match x with
  | Some (VStr t) => String.eqb t s
  | _ => false
  end.

(** [len(x)]: a [TypeError] for an object without length. *)
Definition py_len (v : value) : option nat :=
  match v with
  | VStr s => Some (String.length s)
  | VList l => Some (List.length l)
  | VDict d => Some (List.length d)
  | _ => None
  end.

(** [s[:n]] on a string *)
Fixpoint str_take (n : nat) (s : string) : string :=
  match n, s with
  | S n', String c s' => String c (str_take n' s')
  | _, _ => ""
  end.

(** [x[:n]]: strings and lists can be sliced; a dict cannot. *)
Definition py_slice_to (n : nat) (v : value) : option value :=
  match v with
  | VStr s => Some (VStr (str_take n s))
  | VList l => Some (VList (take n l))
  | _ => None
  end.

(** [x + s] for a string literal [s]: only a string can be added to. *)
Definition py_add_str (v : value) (s : string) : option value :=
  match v with
  | VStr t => Some (VStr (t +:+ s))
  | _ => None
  end.

(** [x.get(key, dflt)] on an arbitrary object: an [AttributeError] unless
    [x] is a dict. *)
Definition py_get (v : value) (key : string) (dflt : value) : option value :=
  match v with
  | VDict d => Some (dict_get_default d key dflt)
  | _ => None
  end.

(** ** [repr], [str] and [json.dumps]

    Python's own functions, as CPython computes them on the values above:
    [json.dumps] with [indent=2] and its default [ensure_ascii], and the
    [repr] that [str] shows for anything but a string. *)

Definition hex_digit (n : nat) : ascii :=
  match n with
  | 0 => "0" | 1 => "1" | 2 => "2" | 3 => "3" | 4 => "4" | 5 => "5" | 6 => "6"
  | 7 => "7" | 8 => "8" | 9 => "9" | 10 => "a" | 11 => "b" | 12 => "c"
  | 13 => "d" | 14 => "e" | _ => "f"
  end%char.

Definition hex2 (n : nat) : string :=
  String (hex_digit (n / 16)) (String (hex_digit (n mod 16)) "").

Fixpoint str_has (c : ascii) (s : string) : bool :=
  match s with
  | "" => false
  | String c' s' => Ascii.eqb c c' || str_has c s'
  end.

Fixpoint str_concat_map (f : ascii → string) (s : string) : string :=
  match s with
  | "" => ""
  | String c s' => f c +:+ str_concat_map f s'
  end.

(** One character of the [repr] of a string quoted with [q]. *)
Definition repr_char (q c : ascii) : string :=
  let n := nat_of_ascii c in
  if Ascii.eqb c q || Ascii.eqb c backslash then String backslash (String c "")
  else if Nat.eqb n 9 then String backslash "t"
  else if Nat.eqb n 10 then String backslash "n"
  else if Nat.eqb n 13 then String backslash "r"
  else if Nat.ltb n 32 || Nat.eqb n 127 then String backslash ("x" +:+ hex2 n)
  else if Nat.ltb n 127 then String c ""
  else if Nat.ltb n 161 || Nat.eqb n 173 then String backslash ("x" +:+ hex2 n)
  else String c "".

Definition repr_str (s : string) : string :=
  let q := if str_has squote s && negb (str_has dquote s) then dquote else squote in
  String q (str_concat_map (repr_char q) s) +:+ String q "".

Fixpoint str_join (sep : string) (l : list string) : string :=
  match l with
  | [] => ""
  | [x] => x
  | x :: l' => x +:+ sep +:+ str_join sep l'
  end.

Fixpoint py_repr (v : value) : string :=
  match v with
  | VNone => "None"
  | VBool true => "True"
  | VBool false => "False"
  | VInt z => pretty z
  | VFloat r => r
  | VStr s => repr_str s
  | VList l => "[" +:+ str_join ", " (map py_repr l) +:+ "]"
  | VDict d =>
      "{" +:+ str_join ", "
                (map (λ kv, match kv with
                            | (k, x) => repr_str k +:+ ": " +:+ py_repr x
                            end) d) +:+ "}"
  end.

(** [str(x)], which is also what an f-string field [{x}] expands to. *)
Definition py_str (v : value) : string :=
  match v with
  | VStr s => s
  | _ => py_repr v
  end.

(** One character of a JSON string, [ensure_ascii] being on. *)
Definition json_char (c : ascii) : string :=
  let n := nat_of_ascii c in
  if Ascii.eqb c dquote || Ascii.eqb c backslash then String backslash (String c "")
  else if Nat.eqb n 8 then String backslash "b"
  else if Nat.eqb n 9 then String backslash "t"
  else if Nat.eqb n 10 then String backslash "n"
  else if Nat.eqb n 12 then String backslash "f"
  else if Nat.eqb n 13 then String backslash "r"
  else if Nat.ltb n 32 || Nat.ltb 126 n then String backslash ("u00" +:+ hex2 n)
  else String c "".

Definition json_str (s : string) : string :=
  String dquote (str_concat_map json_char s) +:+ String dquote "".

Definition json_float (r : string) : string :=
  if String.eqb r "nan" then "NaN"
  else if String.eqb r "inf" then "Infinity"
  else if String.eqb r "-inf" then "-Infinity"
  else r.

Fixpoint spaces (n : nat) : string :=
  match n with
  | 0 => ""
  | S n' => String " " (spaces n')
  end.

Definition newline_indent (level : nat) : string := nl +:+ spaces (2 * level).

Fixpoint json_encode (level : nat) (v : value) : string :=
  match v with
  | VNone => "null"
  | VBool true => "true"
  | VBool false => "false"
  | VInt z => pretty z
  | VFloat r => json_float r
  | VStr s => json_str s
  | VList [] => "[]"
  | VList l =>
      "[" +:+ newline_indent (S level)
          +:+ str_join ("," +:+ newline_indent (S level))
                (map (json_encode (S level)) l)
          +:+ newline_indent level +:+ "]"
  | VDict [] => "{}"
  | VDict d =>
      "{" +:+ newline_indent (S level)
          +:+ str_join ("," +:+ newline_indent (S level))
                (map (λ kv, match kv with
                            | (k, x) => json_str k +:+ ": " +:+ json_encode (S level) x
                            end) d)
          +:+ newline_indent level +:+ "}"
  end.

(** [json.dumps(data, indent=2)] *)
Definition json_dumps (data : value) : string := json_encode 0 data.

(** ** [themes.py]: the colour scheme *)

Module theme.
Record ColorScheme : Type := {
  title : string;
  role : string;
  metadata_key : string;
  metadata_value : string;
  content_label : string;
  block_label : string;
  text_label : string;
  text_content : string;
  tool_use_label : string;
  tool_name : string;
  tool_id : string;
  input_label : string;
  tool_result_label : string;
  success : string;
  error : string;
  output_label : string;
  unknown_type : string;
  panel_border : string;
  usage_border : string;
  usage_header : string;
  usage_metric : string;
  usage_value : string;
  json_theme : string
}.
End theme.
Import theme (ColorScheme).

Definition DARK_THEME : ColorScheme := {|
  theme.title := "bold bright_blue";
  theme.role := "italic bright_cyan";
  theme.metadata_key := "bright_black";
  theme.metadata_value := "white";
  theme.content_label := "bold white";
  theme.block_label := "bright_black";
  theme.text_label := "bright_cyan";
  theme.text_content := "white";
  theme.tool_use_label := "bright_yellow";
  theme.tool_name := "bold bright_yellow";
  theme.tool_id := "bright_black";
  theme.input_label := "bright_green";
  theme.tool_result_label := "bright_yellow";
  theme.success := "bright_green";
  theme.error := "bright_red";
  theme.output_label := "bright_cyan";
  theme.unknown_type := "bright_magenta";
  theme.panel_border := "bright_blue";
  theme.usage_border := "bright_magenta";
  theme.usage_header := "bold bright_magenta";
  theme.usage_metric := "bright_cyan";
  theme.usage_value := "bright_green";
  theme.json_theme := "monokai"
|}.

(** ** [parser.py]: the parsed message *)

Record ParsedContent : Type := {
  type : string;
  data : pydict
}.

(** [usage] is a [Dict[str, int]]; the constructor replaces an absent one by
    the empty dict. *)
Record ParsedMessage : Type := {
  role : string;
  content : list ParsedContent;
  model : option string;
  stop_reason : option string;
  usage : gmap string Z
}.

(** ** What the renderers hand to rich *)

(** A renderable is recorded as the constructor call that made it, with the
    Python value it was given: a [str] (rich reads it as console markup when
    it prints), a [Text] or a [Syntax]. *)
Inductive renderable : Type :=
| Markup (s : string)
| Text (text : value) (style : string)
| Syntax (code : value) (lexer : string) (syntax_theme : string) (line_numbers : bool).

(** [Text(text, style=style)]: the constructor strips the control codes of
    [text] with [text.translate], an [AttributeError] unless [text] is a
    [str]. [Syntax(...)] only stores its code. *)
Definition new_Text (text : value) (style : string) : option renderable :=
  match text with
  | VStr _ => Some (Text text style)
  | _ => None
  end.

Inductive Tree : Type :=
| Node (label : renderable) (children : list Tree).

Definition leaf (label : renderable) : Tree := Node label [].

(** [parent.add(...)], where the node added is [child] as it stands when the
    renderer is done with it. *)
Definition add (parent child : Tree) : Tree :=
  match parent with
  | Node label children => Node label (children ++ [child])
  end.

(** The markup [[style]text[/style]] that the f-strings write. *)
Definition tag (style text : string) : string :=
  "[" +:+ style +:+ "]" +:+ text +:+ "[/" +:+ style +:+ "]".

(** ** Truncation *)

Definition text_marker : string := nl +:+ "... (truncated)".
Definition json_marker : string := nl +:+ "  ... (truncated)".

(** The statement pair [if len(x) > limit: x = x[:limit] + marker] of the
    renderers, on whatever object [x] is. *)
Definition truncate_to (limit : nat) (marker : string) (x : value) : option value :=
  n ← py_len x;
  if (limit <? n)%nat then y ← py_slice_to limit x; py_add_str y marker
  else Some x.

(** [s[:n]] for an int [n]: a negative [n] counts from the end. *)
Definition str_slice_to (n : Z) (s : string) : string :=
  if (n <? 0)%Z then str_take (Z.to_nat (Z.of_nat (String.length s) + n)) s
  else str_take (Z.to_nat n) s.

Definition format_json (data : value) (max_length : Z) : string :=
  let json_str := json_dumps data in
  if (max_length <? Z.of_nat (String.length json_str))%Z
  then str_slice_to max_length json_str +:+ json_marker
  else json_str.

(** The default of [max_length], which every call of the renderers takes. *)
Definition max_length_default : Z := 500.

(** [Syntax(format_json(x), "json", theme=theme.json_theme, line_numbers=False)] *)
Definition json_syntax (th : ColorScheme) (x : value) : renderable :=
  Syntax (VStr (format_json x max_length_default)) "json" (theme.json_theme th) false.

(** A [for] loop whose body may raise. *)
Fixpoint for_each {A S : Type} (body : S → A → option S) (s : S) (l : list A) : option S :=
  match l with
  | [] => Some s
  | x :: l' => s' ← body s x; for_each body s' l'
  end.

(** ** The block renderers *)

Definition render_text_content (content : ParsedContent) (tree : Tree) (th : ColorScheme)
  : option Tree :=
  let text := dict_get_default (data content) "text" (VStr "") in
  if py_truthy text then
    text ← truncate_to 1000 text_marker text;
    let text_node := leaf (Markup (tag (theme.text_label th) "Text")) in
    text ← new_Text text (theme.text_content th);
    let text_node := add text_node (leaf text) in
    Some (add tree text_node)
  else Some tree.

Definition render_tool_use (content : ParsedContent) (tree : Tree) (th : ColorScheme)
  : option Tree :=
  let tool_name := dict_get_default (data content) "name" (VStr "unknown") in
  let tool_id := dict_get_default (data content) "id" (VStr "") in
  let tool_input := dict_get_default (data content) "input" (VDict []) in
  let caller := dict_get_default (data content) "caller" (VDict []) in
  let tool_node :=
    leaf (Markup (tag (theme.tool_use_label th) "Tool Use:" +:+ " "
                  +:+ tag (theme.tool_name th) (py_str tool_name))) in
  let tool_node :=
    if py_truthy tool_id
    then add tool_node (leaf (Markup (tag (theme.tool_id th) "ID:" +:+ " " +:+ py_str tool_id)))
    else tool_node in
  tool_node ←
    (if py_truthy caller then
       caller_type ← py_get caller "type" (VStr "unknown");
       let caller_label :=
         if py_eq_str (Some caller_type) "code_execution_20250825"
         then VStr "code execution environment"
         else if py_eq_str (Some caller_type) "direct"
         then VStr "model (direct)"
         else caller_type in
       Some (add tool_node
               (leaf (Markup (tag (theme.metadata_key th) "Caller:" +:+ " "
                              +:+ py_str caller_label))))
     else Some tool_node);
  let tool_node :=
    if py_truthy tool_input then
      let input_node := leaf (Markup (tag (theme.input_label th) "Input:")) in
      add tool_node (add input_node (leaf (json_syntax th tool_input)))
    else tool_node in
  Some (add tree tool_node).

Definition render_server_tool_use (content : ParsedContent) (tree : Tree) (th : ColorScheme)
  : option Tree :=
  let tool_id := dict_get_default (data content) "id" (VStr "") in
  let tool_input := dict_get_default (data content) "input" (VDict []) in
  let caller := dict_get_default (data content) "caller" (VDict []) in
  let server_node := leaf (Markup (tag (theme.tool_use_label th) "Server Tool Use")) in
  let server_node :=
    if py_truthy tool_id
    then add server_node (leaf (Markup (tag (theme.tool_id th) "ID:" +:+ " " +:+ py_str tool_id)))
    else server_node in
  server_node ←
    (if py_truthy caller then
       caller_type ← py_get caller "type" (VStr "unknown");
       Some (add server_node
               (leaf (Markup (tag (theme.metadata_key th) "Caller:" +:+ " "
                              +:+ py_str caller_type))))
     else Some server_node);
  server_node ←
    (if py_truthy tool_input then
       code ← py_get tool_input "code" VNone;
       if py_truthy code then
         let code_node := leaf (Markup (tag (theme.input_label th) "Code:")) in
         code ← truncate_to 1000 text_marker code;
         let code_syntax := Syntax code "python" (theme.json_theme th) true in
         Some (add server_node (add code_node (leaf code_syntax)))
       else
         let input_node := leaf (Markup (tag (theme.input_label th) "Input:")) in
         Some (add server_node (add input_node (leaf (json_syntax th tool_input))))
     else Some server_node);
  Some (add tree server_node).

(** [isinstance(item, dict) and item.get("type") == "text"] *)
Definition is_text_item (item : value) : bool :=
  match item with
  | VDict d => py_eq_str (dict_get d "type") "text"
  | _ => false
  end.

(** The body of the loop over a list-valued [content] of a tool result. *)
Definition render_tool_result_item (th : ColorScheme) (result_node : Tree) (item : value)
  : option Tree :=
  let output_label := Markup (tag (theme.output_label th) "Output:") in
  if is_text_item item then
    text ← py_get item "text" (VStr "");
    if py_truthy text then
      let output_node := leaf output_label in
      text ← truncate_to 1000 text_marker text;
      text ← new_Text text (theme.text_content th);
      Some (add result_node (add output_node (leaf text)))
    else Some result_node
  else
    let output_node := leaf output_label in
    Some (add result_node (add output_node (leaf (Markup (py_str item))))).

Definition render_tool_result (content : ParsedContent) (tree : Tree) (th : ColorScheme)
  : option Tree :=
  let tool_id := dict_get_default (data content) "tool_use_id" (VStr "") in
  let is_error := dict_get_default (data content) "is_error" (VBool false) in
  let result_content := dict_get_default (data content) "content" (VStr "") in
  let status :=
    if py_truthy is_error then tag (theme.error th) "Error"
    else tag (theme.success th) "Success" in
  let result_node :=
    leaf (Markup (tag (theme.tool_result_label th) "Tool Result:" +:+ " " +:+ status)) in
  let result_node :=
    if py_truthy tool_id
    then add result_node
           (leaf (Markup (tag (theme.tool_id th) "Tool Use ID:" +:+ " " +:+ py_str tool_id)))
    else result_node in
  result_node ←
    (if py_truthy result_content then
       match result_content with
       | VList items => for_each (render_tool_result_item th) result_node items
       | _ =>
           let output_node := leaf (Markup (tag (theme.output_label th) "Output:")) in
           let text := VStr (py_str result_content) in
           text ← truncate_to 1000 text_marker text;
           text ← new_Text text (theme.text_content th);
           Some (add result_node (add output_node (leaf text)))
       end
     else Some result_node);
  Some (add tree result_node).

Definition render_code_execution_result (content : ParsedContent) (tree : Tree)
    (th : ColorScheme) : option Tree :=
  let nested_content := dict_get_default (data content) "content" (VDict []) in
  match nested_content with
  | VDict nested =>
      let return_code := dict_get_default nested "return_code" (VInt 0) in
      let stdout := dict_get_default nested "stdout" (VStr "") in
      let stderr := dict_get_default nested "stderr" (VStr "") in
      let status :=
        if py_eq_zero return_code
        then tag (theme.success th) ("Success (exit " +:+ py_str return_code +:+ ")")
        else tag (theme.error th) ("Error (exit " +:+ py_str return_code +:+ ")") in
      let result_node :=
        leaf (Markup (tag (theme.tool_result_label th) "Code Execution Result:"
                      +:+ " " +:+ status)) in
      '(result_node, stdout) ←
        (if py_truthy stdout then
           let stdout_node := leaf (Markup (tag (theme.success th) "stdout:")) in
           stdout ← truncate_to 2000 text_marker stdout;
           text ← new_Text stdout (theme.text_content th);
           Some (add result_node (add stdout_node (leaf text)), stdout)
         else Some (result_node, stdout));
      '(result_node, stderr) ←
        (if py_truthy stderr then
           let stderr_node := leaf (Markup (tag (theme.error th) "stderr:")) in
           stderr ← truncate_to 2000 text_marker stderr;
           text ← new_Text stderr (theme.text_content th);
           Some (add result_node (add stderr_node (leaf text)), stderr)
         else Some (result_node, stderr));
      let result_node :=
        if negb (py_truthy stdout) && negb (py_truthy stderr)
        then add result_node (leaf (Markup (tag (theme.metadata_key th) "(no output)")))
        else result_node in
      Some (add tree result_node)
  | _ =>
      let result_node :=
        leaf (Markup (tag (theme.tool_result_label th) "Code Execution Result")) in
      Some (add tree (add result_node (leaf (json_syntax th (VDict (data content))))))
  end.

Definition render_content_block (content : ParsedContent) (tree : Tree) (th : ColorScheme)
  : option Tree :=
  if String.eqb (type content) "text" then render_text_content content tree th
  else if String.eqb (type content) "tool_use" then render_tool_use content tree th
  else if String.eqb (type content) "tool_result" then render_tool_result content tree th
  else if String.eqb (type content) "server_tool_use"
  then render_server_tool_use content tree th
  else if String.eqb (type content) "code_execution_tool_result"
  then render_code_execution_result content tree th
  else
    let unknown_node :=
      leaf (Markup (tag (theme.unknown_type th) "Unknown Type:" +:+ " " +:+ type content)) in
    Some (add tree (add unknown_node (leaf (json_syntax th (VDict (data content)))))).

(** ** The usage table and the message assembler *)

(** rich's [Table], as the calls of [create_usage_table] fill it. *)
Record Column : Type := {
  header : string;
  justify : string;
  style : string
}.

Record Table : Type := {
  show_header : bool;
  header_style : string;
  columns : list Column;
  rows : list (list string)
}.

Definition add_column (table : Table) (c : Column) : Table :=
  {| show_header := show_header table; header_style := header_style table;
     columns := columns table ++ [c]; rows := rows table |}.

Definition add_row (table : Table) (r : list string) : Table :=
  {| show_header := show_header table; header_style := header_style table;
     columns := columns table; rows := rows table ++ [r] |}.

Definition create_usage_table (usage : gmap string Z) (th : ColorScheme) : Table :=
  let table :=
    {| show_header := true; header_style := theme.usage_header th;
       columns := []; rows := [] |} in
  let table :=
    add_column table
      {| header := "Metric"; justify := "left"; style := theme.usage_metric th |} in
  let table :=
    add_column table
      {| header := "Value"; justify := "right"; style := theme.usage_value th |} in
  let input_tokens := default 0%Z (usage !! "input_tokens") in
  let output_tokens := default 0%Z (usage !! "output_tokens") in
  let total_tokens := (input_tokens + output_tokens)%Z in
  let table := add_row table ["Input Tokens"; pretty input_tokens] in
  let table := add_row table ["Output Tokens"; pretty output_tokens] in
  let table := add_row table ["Total Tokens"; pretty total_tokens] in
  table.

(** rich's [Panel] around a tree or a table. *)
Inductive panel_body : Type :=
| OfTree (t : Tree)
| OfTable (t : Table).

Record Panel : Type := {
  body : panel_body;
  panel_title : string;
  border_style : string;
  expand : bool
}.

(** What one call of [console.print] is given. *)
Inductive printed : Type :=
| PrintPanel (p : Panel)
| PrintBlank.

(** What a function has put on the console, in order, and whether it ended
    in an exception. *)
Record printing : Type := {
  console : list printed;
  raised : bool
}.

(** [console.print(x)], as a statement that follows [p]. The call is rich's:
    it renders [x], reading every string label, title and cell as console
    markup, and returns or raises. [returns x] says that it returns, and then
    [x] is on the console; while an exception is on its way nothing is
    run. *)
Definition console_print (returns : printed → bool) (x : printed) (p : printing) : printing :=
  if raised p then p
  else if returns x then {| console := console p ++ [x]; raised := false |}
  else {| console := console p; raised := true |}.

(** [if x:] on an [Optional[str]] *)
Definition opt_truthy (x : option string) : bool :=
  match x with
  | Some s => negb (String.eqb s "")
  | None => false
  end.

(** [enumerate(l, start)] *)
Fixpoint enumerate {A : Type} (l : list A) (start : nat) : list (nat * A) :=
  match l with
  | [] => []
  | x :: l' => (start, x) :: enumerate l' (S start)
  end.

(** The body of the loop over the content blocks. *)
Definition render_block (th : ColorScheme) (content_tree : Tree) (ic : nat * ParsedContent)
  : option Tree :=
  let '(i, content) := ic in
  let block_tree := leaf (Markup (tag (theme.block_label th) ("Block " +:+ pretty i))) in
  block_tree ← render_content_block content block_tree th;
  Some (add content_tree block_tree).

(** The tree [visualize_message] builds before it prints anything. *)
Definition message_tree (message : ParsedMessage) (th : ColorScheme) : option Tree :=
  let tree :=
    leaf (Markup (tag (theme.title th) "Claude Message" +:+ " ("
                  +:+ tag (theme.role th) (role message) +:+ ")")) in
  let tree :=
    if opt_truthy (model message)
    then add tree (leaf (Markup (tag (theme.metadata_key th) "Model:" +:+ " "
                                 +:+ default "" (model message))))
    else tree in
  let tree :=
    if opt_truthy (stop_reason message)
    then add tree (leaf (Markup (tag (theme.metadata_key th) "Stop Reason:" +:+ " "
                                 +:+ default "" (stop_reason message))))
    else tree in
  match content message with
  | [] => Some tree
  | _ =>
      let content_tree :=
        leaf (Markup (tag (theme.content_label th) "Content" +:+ " ("
                      +:+ pretty (List.length (content message)) +:+ " blocks)")) in
      content_tree ← for_each (render_block th) content_tree (enumerate (content message) 1);
      Some (add tree content_tree)
  end.

(** [visualize_message], with the theme given. An exception of a renderer
    comes before anything is printed. *)
Definition visualize_message (returns : printed → bool) (message : ParsedMessage)
    (th : ColorScheme) : printing :=
  match message_tree message th with
  | None => {| console := []; raised := true |}
  | Some tree =>
      let panel :=
        {| body := OfTree tree; panel_title := "[bold]Claude API Response[/bold]";
           border_style := theme.panel_border th; expand := false |} in
      let p := console_print returns (PrintPanel panel) {| console := []; raised := false |} in
      if decide (usage message = ∅) then p
      else
        let p := console_print returns PrintBlank p in
        let usage_table := create_usage_table (usage message) th in
        let usage_panel :=
          {| body := OfTable usage_table; panel_title := "[bold]Token Usage[/bold]";
             border_style := theme.usage_border th; expand := false |} in
        console_print returns (PrintPanel usage_panel) p
  end.

(** ** [parser.py]: from a JSON value to a parsed message

    [parse_content_block] and [parse_response] on the values [json.loads]
    gives. An object of the Anthropic SDK is not such a value, and the
    [hasattr] tests that look for one fail on every one of them. The two
    constructors store what they are given, of whatever type it is, so the
    result is recorded with values in its fields. *)

Record RawContent : Type := {
  raw_type : value;
  raw_data : pydict
}.

Record RawMessage : Type := {
  raw_role : value;
  raw_content : list RawContent;
  raw_model : value;
  raw_stop_reason : value;
  raw_usage : value
}.

(** What a comprehension draws from [x]: the elements of a list, the
    characters of a string, the keys of a dict; a [TypeError] for an object
    that is not iterable. *)
Definition py_iter (x : value) : option (list value) :=
  match x with
  | VList l => Some l
  | VStr s => Some (map (λ c, VStr (String c "")) (list_ascii_of_string s))
  | VDict d => Some (map (λ kv, VStr (fst kv)) d)
  | _ => None
  end.

Definition parse_content_block (block : value) : RawContent :=
  match block with
  | VDict d =>
      let content_type := dict_get_default d "type" (VStr "unknown") in
      {| raw_type := content_type; raw_data := d |}
  | VStr s => {| raw_type := VStr "text"; raw_data := [("text", VStr s)] |}
  | _ => {| raw_type := VStr "unknown"; raw_data := [("raw", VStr (py_str block))] |}
  end.

(** [x or {}] *)
Definition or_empty_dict (x : value) : value :=
  if py_truthy x then x else VDict [].

Definition parse_response (response : value) : option RawMessage :=
  match response with
  | VDict d =>
      let role := dict_get_default d "role" (VStr "unknown") in
      let content_blocks := dict_get_default d "content" (VList []) in
      let model := dict_get_default d "model" VNone in
      let stop_reason := dict_get_default d "stop_reason" VNone in
      let usage := dict_get_default d "usage" (VDict []) in
      blocks ← py_iter content_blocks;
      let parsed_content := map parse_content_block blocks in
      Some {| raw_role := role; raw_content := parsed_content; raw_model := model;
              raw_stop_reason := stop_reason; raw_usage := or_empty_dict usage |}
  | _ => None
  end.

(** ** [themes.py]: choosing the colour scheme *)

Inductive Theme : Type := AUTO | DARK | LIGHT | JUPYTER | CUSTOM.

Definition LIGHT_THEME : ColorScheme := {|
  theme.title := "bold blue";
  theme.role := "italic cyan";
  theme.metadata_key := "black";
  theme.metadata_value := "black";
  theme.content_label := "bold black";
  theme.block_label := "black";
  theme.text_label := "cyan";
  theme.text_content := "black";
  theme.tool_use_label := "yellow";
  theme.tool_name := "bold yellow";
  theme.tool_id := "black";
  theme.input_label := "green";
  theme.tool_result_label := "yellow";
  theme.success := "green";
  theme.error := "red";
  theme.output_label := "cyan";
  theme.unknown_type := "magenta";
  theme.panel_border := "blue";
  theme.usage_border := "magenta";
  theme.usage_header := "bold magenta";
  theme.usage_metric := "cyan";
  theme.usage_value := "green";
  theme.json_theme := "default"
|}.

Definition JUPYTER_THEME : ColorScheme := {|
  theme.title := "bold cyan";
  theme.role := "italic green";
  theme.metadata_key := "dim white";
  theme.metadata_value := "white";
  theme.content_label := "bold white";
  theme.block_label := "dim white";
  theme.text_label := "cyan";
  theme.text_content := "white";
  theme.tool_use_label := "yellow";
  theme.tool_name := "bold yellow";
  theme.tool_id := "dim white";
  theme.input_label := "green";
  theme.tool_result_label := "yellow";
  theme.success := "green";
  theme.error := "red";
  theme.output_label := "cyan";
  theme.unknown_type := "magenta";
  theme.panel_border := "cyan";
  theme.usage_border := "magenta";
  theme.usage_header := "bold magenta";
  theme.usage_metric := "cyan";
  theme.usage_value := "green";
  theme.json_theme := "monokai"
|}.

(** [get_theme]; [ipython] says whether [import IPython] succeeds in the
    running interpreter. *)
Definition get_theme (ipython : bool) (t : Theme) : ColorScheme :=
  match t with
  | DARK => DARK_THEME
  | LIGHT => LIGHT_THEME
  | JUPYTER => JUPYTER_THEME
  | AUTO => if ipython then JUPYTER_THEME else DARK_THEME
  | CUSTOM => DARK_THEME
  end.

(** The module variable [_current_theme] is the state: [None] until a scheme
    is set. [set_theme] returns the new state, [get_current_theme] the
    scheme and the new state. *)
Definition set_theme (ipython : bool) (t : Theme) (_current_theme : option ColorScheme)
  : option ColorScheme :=
  Some (get_theme ipython t).

Definition get_current_theme (ipython : bool) (_current_theme : option ColorScheme)
  : ColorScheme * option ColorScheme :=
  match _current_theme with
  | None =>
      let scheme := get_theme ipython AUTO in
      (scheme, Some scheme)
  | Some scheme => (scheme, _current_theme)
  end.

(** [visualize_message] called without a theme: it takes the current one,
    which sets the module variable when that is still [None]. The result is
    what is printed (and the exception, if any) and the state left behind. *)
Definition visualize_message_current (returns : printed → bool) (message : ParsedMessage)
    (ipython : bool) (_current_theme : option ColorScheme)
  : printing * option ColorScheme :=
  let '(th, _current_theme) := get_current_theme ipython _current_theme in
  (visualize_message returns message th, _current_theme).

(** ** [hooks.py]: the [visualize] object

    The methods of the class on JSON values. What a method does outside the
    object is recorded as a list of effects, so the file system and the
    clock stay out of the model: the time stamp a saved file is named after
    is an argument, and so is [returns], which says on which responses
    [visualize_response] returns rather than raises. *)

Module hooks.

(** The attributes of a [visualize] object. [Path(save_to)] is kept as the
    string it was made from. *)
Record visualize : Type := {
  save_to : option string;
  auto_show : bool;
  responses : list value
}.

Inductive effect : Type :=
| Mkdir (directory : string)
| WriteFile (directory : string) (name : string) (text : string)
| Visualize (response : value).

(** A method leaves the object in a new state, has had its effects, in
    order, and has returned or raised. *)
Record outcome : Type := {
  self_after : visualize;
  effects : list effect;
  raised : bool
}.

Definition __init__ (save_to : option string) (auto_show : bool) : visualize * list effect :=
  let save_to :=
    match save_to with
    | Some path => if String.eqb path "" then None else Some path
    | None => None
    end in
  ({| save_to := save_to; auto_show := auto_show; responses := [] |},
   match save_to with
   | Some path => [Mkdir path]
   | None => []
   end).

(** [timestamp] is what [datetime.now().strftime] gives when it is called. A
    JSON value has no [model_dump] and no [dict] method, so only a dict is
    written. *)
Definition _save_response (directory : string) (response : value) (timestamp : string)
  : list effect :=
  match response with
  | VDict _ =>
      [WriteFile directory ("response_" +:+ timestamp +:+ ".json") (json_dumps response)]
  | _ => []
  end.

Definition _is_claude_response (obj : value) : bool :=
  match obj with
  | VDict d =>
      bool_decide (is_Some (dict_get d "content")) && bool_decide (is_Some (dict_get d "role"))
  | _ => false
  end.

Definition capture (returns : value → bool) (self : visualize) (response : value)
    (timestamp : string) : outcome :=
  let self := {| save_to := save_to self; auto_show := auto_show self;
                 responses := responses self ++ [response] |} in
  let saved :=
    match save_to self with
    | Some directory => _save_response directory response timestamp
    | None => []
    end in
  if auto_show self
  then {| self_after := self; effects := saved ++ [Visualize response];
          raised := negb (returns response) |}
  else {| self_after := self; effects := saved; raised := false |}.

(** The loop of [__exit__]: it stops at the first response on which
    [visualize_response] raises. *)
Fixpoint show_all (returns : value → bool) (rs : list value) : list effect * bool :=
  match rs with
  | [] => ([], false)
  | r :: rs' =>
      if returns r
      then let '(shown, raised) := show_all returns rs' in (Visualize r :: shown, raised)
      else ([Visualize r], true)
  end.

Definition __exit__ (returns : value → bool) (self : visualize) : outcome :=
  match responses self with
  | [] => {| self_after := self; effects := []; raised := false |}
  | _ =>
      if auto_show self
      then let '(shown, raised) := show_all returns (responses self) in
           {| self_after := self; effects := shown; raised := raised |}
      else {| self_after := self; effects := []; raised := false |}
  end.

(** The wrapper that [__call__] puts around [func], once [func] has returned
    [result]. *)
Definition wrapper (returns : value → bool) (self : visualize) (result : value)
    (timestamp : string) : outcome :=
  if _is_claude_response result then capture returns self result timestamp
  else {| self_after := self; effects := []; raised := false |}.

End hooks.

(** * The vocabulary of the statements *)

(** ** Strings *)

(** [s[n:]] *)
Fixpoint str_drop (n : nat) (s : string) : string :=
  match n, s with
  | S n', String _ s' => str_drop n' s'
  | _, _ => s
  end.

(** [c * n] *)
Fixpoint str_repeat (c : ascii) (n : nat) : string :=
  match n with
  | 0 => ""
  | S n' => String c (str_repeat c n')
  end.

(** Occurrences of a character, to tell two labels apart whatever the
    styles of the theme are. *)
Fixpoint occ (c : ascii) (s : string) : nat :=
  match s with
  | "" => 0
  | String c' s' => (if Ascii.eqb c c' then 1 else 0) + occ c s'
  end.

(** ** The truncation policy, in the words of the specification

    [(text, limit) -> text if len(text) <= limit else text[:limit] + marker] *)
Definition truncation_policy (marker : string) (limit : nat) (text : string) : string :=
  if (String.length text <=? limit)%nat then text
  else str_take limit text +:+ marker.

(** ** Trees *)

Definition tree_label (t : Tree) : renderable :=
  match t with
  | Node label _ => label
  end.

(** A renderer leaves the tree as it is or adds one node to it. *)
Definition adds_at_most_one (tree tree' : Tree) : Prop :=
  tree' = tree ∨ ∃ node, tree' = add tree node.

(** ** The nodes the renderers add *)

(** The text renderer, for the text [s] it shows. *)
Definition text_node (th : ColorScheme) (s : string) : Tree :=
  Node (Markup (tag (theme.text_label th) "Text"))
       [leaf (Text (VStr s) (theme.text_content th))].

(** The tool_result renderer, for a text it shows. *)
Definition output_node (th : ColorScheme) (s : string) : Tree :=
  Node (Markup (tag (theme.output_label th) "Output:"))
       [leaf (Text (VStr s) (theme.text_content th))].

(** The two tool-use renderers, for an input shown as JSON. *)
Definition input_node (th : ColorScheme) (input : value) : Tree :=
  Node (Markup (tag (theme.input_label th) "Input:"))
       [leaf (Syntax (VStr (format_json input 500)) "json" (theme.json_theme th) false)].

(** The server_tool_use renderer, for the code it shows. *)
Definition code_node (th : ColorScheme) (code : string) : Tree :=
  Node (Markup (tag (theme.input_label th) "Code:"))
       [leaf (Syntax (VStr code) "python" (theme.json_theme th) true)].

(** What the server_tool_use renderer adds for a non-empty [input] dict
    whose [code] is a string or absent. *)
Definition server_input_node (th : ColorScheme) (input : pydict) : Tree :=
  match dict_get input "code" with
  | Some (VStr code) =>
      if String.eqb code "" then input_node th (VDict input)
      else code_node th (truncation_policy text_marker 1000 code)
  | _ => input_node th (VDict input)
  end.

(** The code-execution renderer, for its two streams. *)
Definition stdout_node (th : ColorScheme) (s : string) : Tree :=
  Node (Markup (tag (theme.success th) "stdout:"))
       [leaf (Text (VStr s) (theme.text_content th))].

Definition stderr_node (th : ColorScheme) (s : string) : Tree :=
  Node (Markup (tag (theme.error th) "stderr:"))
       [leaf (Text (VStr s) (theme.text_content th))].

(** ** The parts of a rendered message *)

Definition title_label (th : ColorScheme) (message : ParsedMessage) : renderable :=
  Markup (tag (theme.title th) "Claude Message" +:+ " ("
          +:+ tag (theme.role th) (role message) +:+ ")").

(** The model and stop-reason lines, each present when its field is. *)
Definition metadata_lines (th : ColorScheme) (message : ParsedMessage) : list Tree :=
  (if opt_truthy (model message)
   then [leaf (Markup (tag (theme.metadata_key th) "Model:" +:+ " "
                       +:+ default "" (model message)))]
   else [])
  ++ (if opt_truthy (stop_reason message)
      then [leaf (Markup (tag (theme.metadata_key th) "Stop Reason:" +:+ " "
                          +:+ default "" (stop_reason message)))]
      else []).

Definition content_header (th : ColorScheme) (n : nat) : renderable :=
  Markup (tag (theme.content_label th) "Content" +:+ " (" +:+ pretty n +:+ " blocks)").

Definition block_label (th : ColorScheme) (i : nat) : renderable :=
  Markup (tag (theme.block_label th) ("Block " +:+ pretty i)).

Definition main_panel (tree : Tree) (th : ColorScheme) : Panel :=
  {| body := OfTree tree; panel_title := "[bold]Claude API Response[/bold]";
     border_style := theme.panel_border th; expand := false |}.

Definition usage_panel (usage : gmap string Z) (th : ColorScheme) : Panel :=
  {| body := OfTable (create_usage_table usage th);
     panel_title := "[bold]Token Usage[/bold]";
     border_style := theme.usage_border th; expand := false |}.


(** ** Kinds and field types *)

Definition known_kinds : list string :=
  ["text"; "tool_use"; "tool_result"; "server_tool_use"; "code_execution_tool_result"].

Definition str_or_absent (field : option value) : bool :=
  match field with
  | None | Some (VStr _) => true
  | Some _ => false
  end.

Definition dict_or_absent (field : option value) : bool :=
  match field with
  | None | Some (VDict _) => true
  | Some _ => false
  end.

Definition is_dict (v : value) : bool :=
  match v with
  | VDict _ => true
  | _ => false
  end.

(** An item of a list-valued tool result: when it is tagged as text, its
    [text] is a string or absent. *)
Definition item_as_expected (item : value) : bool :=
  match item with
  | VDict d =>
      if py_eq_str (dict_get d "type") "text" then str_or_absent (dict_get d "text")
      else true
  | _ => true
  end.

(** The fields that a renderer measures or looks into have, when present,
    the type it expects: [text], [input.code], [content.stdout] and
    [content.stderr] are strings, [caller] and the [input] of a
    server_tool_use are dicts. *)
Definition fields_as_expected (content : ParsedContent) : bool :=
  let d := data content in
  if String.eqb (type content) "text" then str_or_absent (dict_get d "text")
  else if String.eqb (type content) "tool_use" then dict_or_absent (dict_get d "caller")
  else if String.eqb (type content) "tool_result" then
    match dict_get d "content" with
    | Some (VList items) => forallb item_as_expected items
    | _ => true
    end
  else if String.eqb (type content) "server_tool_use" then
    dict_or_absent (dict_get d "caller")
    && match dict_get d "input" with
       | None => true
       | Some (VDict input) => str_or_absent (dict_get input "code")
       | Some _ => false
       end
  else if String.eqb (type content) "code_execution_tool_result" then
    match dict_get d "content" with
    | Some (VDict nested) =>
        str_or_absent (dict_get nested "stdout") && str_or_absent (dict_get nested "stderr")
    | _ => true
    end
  else true.

(** ** Messages and blocks of the examples *)

Definition text_block (s : string) : ParsedContent :=
  {| type := "text"; data := [("type", VStr "text"); ("text", VStr s)] |}.


Definition custom_v2 : ParsedContent :=
  {| type := "custom_v2"; data := [("type", VStr "custom_v2"); ("foo", VStr "bar")] |}.


Definition caller_block (kind caller_type : string) : ParsedContent :=
  {| type := kind;
     data := [("type", VStr kind); ("caller", VDict [("type", VStr caller_type)])] |}.

Definition server_block (input : pydict) : ParsedContent :=
  {| type := "server_tool_use";
     data := [("type", VStr "server_tool_use"); ("id", VStr "srv1");
              ("input", VDict input)] |}.

Definition failed_result : ParsedContent :=
  {| type := "tool_result";
     data := [("type", VStr "tool_result"); ("tool_use_id", VStr "t1");
              ("is_error", VBool true); ("content", VStr "boom")] |}.

Definition silent_success : ParsedContent :=
  {| type := "code_execution_tool_result";
     data := [("type", VStr "code_execution_tool_result");
              ("content", VDict [("return_code", VInt 0); ("stdout", VStr "");
                                 ("stderr", VStr "")])] |}.

Definition failed_run : ParsedContent :=
  {| type := "code_execution_tool_result";
     data := [("type", VStr "code_execution_tool_result");
              ("content", VDict [("return_code", VInt 1); ("stderr", VStr "boom")])] |}.

Definition noisy_run : ParsedContent :=
  {| type := "code_execution_tool_result";
     data := [("type", VStr "code_execution_tool_result");
              ("content", VDict [("return_code", VInt 0);
                                 ("stdout", VStr (str_repeat "x" 2001));
                                 ("stderr", VStr "warning")])] |}.


Definition scenario7 : ParsedMessage :=
  {| role := "assistant"; content := [text_block "hi"]; model := Some "m1";
     stop_reason := None;
     usage := {[ "input_tokens" := 5%Z; "output_tokens" := 3%Z ]} |}.

Definition negative_usage : ParsedMessage :=
  {| role := "assistant"; content := []; model := None; stop_reason := None;
     usage := {[ "input_tokens" := (-5)%Z ]} |}.

(** ** Parsed values seen through the annotations of [parser.py]

    [ParsedContent] and [ParsedMessage] as their annotations have them:
    [Some] when the fields of a parsed value have the annotated types. *)

Definition checked_content (r : RawContent) : option ParsedContent :=
  match raw_type r with
  | VStr kind => Some {| type := kind; data := raw_data r |}
  | _ => None
  end.

(** An [Optional[str]] *)
Definition checked_optional_str (v : value) : option (option string) :=
  match v with
  | VNone => Some None
  | VStr s => Some (Some s)
  | _ => None
  end.

(** A [Dict[str, int]] *)
Definition checked_usage (v : value) : option (gmap string Z) :=
  match v with
  | VDict d =>
      list_to_map <$>
        mapM (λ kv, match snd kv with
                    | VInt z => Some (fst kv, z)
                    | _ => None
                    end) d
  | _ => None
  end.

Definition checked_message (r : RawMessage) : option ParsedMessage :=
  match raw_role r with
  | VStr role =>
      content ← mapM checked_content (raw_content r);
      model ← checked_optional_str (raw_model r);
      stop_reason ← checked_optional_str (raw_stop_reason r);
      usage ← checked_usage (raw_usage r);
      Some {| role := role; content := content; model := model;
              stop_reason := stop_reason; usage := usage |}
  | _ => None
  end.

Definition iterable (v : value) : bool :=
  match v with
  | VList _ | VStr _ | VDict _ => true
  | _ => false
  end.

(** The node the fallback of [render_content_block] adds. *)
Definition unknown_node (th : ColorScheme) (kind : string) (payload : pydict) : Tree :=
  Node (Markup (tag (theme.unknown_type th) "Unknown Type:" +:+ " " +:+ kind))
       [leaf (Syntax (VStr (format_json (VDict payload) 500)) "json"
                (theme.json_theme th) false)].

Definition tree_children (t : Tree) : list Tree :=
  match t with
  | Node _ children => children
  end.

(** [tree] with the nodes [kids] added after its children. *)
Definition extend (tree : Tree) (kids : list Tree) : Tree :=
  Node (tree_label tree) (tree_children tree ++ kids).

(** The block [c] rendered on its own, inside the wrapper "Block i". *)
Definition rendered_block (th : ColorScheme) (i : nat) (c : ParsedContent) : option Tree :=
  render_content_block c (leaf (block_label th i)) th.

(** The fields the renderer of a kind reads from the payload. *)
Definition fields_read (kind : string) : list string :=
  if String.eqb kind "text" then ["text"]
  else if String.eqb kind "tool_use" then ["name"; "id"; "input"; "caller"]
  else if String.eqb kind "tool_result" then ["tool_use_id"; "is_error"; "content"]
  else if String.eqb kind "server_tool_use" then ["id"; "input"; "caller"]
  else [].

Definition same_fields (keys : list string) (d d' : pydict) : Prop :=
  ∀ key, key ∈ keys → dict_get d key = dict_get d' key.

(** What the tool_result renderer adds for one item of a list-valued
    [content] whose text, when it is tagged as text, is a string or absent:
    the text, truncated, or nothing when it is empty; the [str] of any other
    item, as it is. *)
Definition item_outputs (th : ColorScheme) (item : value) : list Tree :=
  if is_text_item item then
    match py_get item "text" (VStr "") with
    | Some (VStr s) =>
        if String.eqb s "" then []
        else [output_node th (truncation_policy text_marker 1000 s)]
    | _ => []
    end
  else [Node (Markup (tag (theme.output_label th) "Output:")) [leaf (Markup (py_str item))]].

(** What the code-execution renderer puts under its status line for a
    stdout [out] and a stderr [err], each the empty string when absent. *)
Definition stream_nodes (th : ColorScheme) (out err : string) : list Tree :=
  (if String.eqb out "" then []
   else [stdout_node th (truncation_policy text_marker 2000 out)])
  ++ (if String.eqb err "" then []
      else [stderr_node th (truncation_policy text_marker 2000 err)])
  ++ (if String.eqb out "" && String.eqb err ""
      then [leaf (Markup (tag (theme.metadata_key th) "(no output)"))]
      else []).

(** ** More messages and blocks of the examples *)

(** A console on which every print returns. *)
Definition always_prints (x : printed) : bool := true.

Definition lone_stderr_run : ParsedContent :=
  {| type := "code_execution_tool_result";
     data := [("type", VStr "code_execution_tool_result");
              ("content", VDict [("return_code", VInt 1);
                                 ("stderr", VStr (str_repeat "e" 2001))])] |}.

Definition named_server_block : pydict :=
  [("type", VStr "server_tool_use"); ("id", VStr "srv1"); ("name", VStr "code_execution");
   ("input", VDict [("code", VStr "print(1)")])].

Definition unnamed_server_block : pydict :=
  [("type", VStr "server_tool_use"); ("id", VStr "srv1");
   ("input", VDict [("code", VStr "print(1)")])].

Definition mixed_result : ParsedContent :=
  {| type := "tool_result";
     data := [("type", VStr "tool_result");
              ("content", VList [VDict [("type", VStr "text"); ("text", VStr "ok")];
                                 VDict [("type", VStr "text"); ("text", VStr "")];
                                 VStr "plain"; VInt 7])] |}.

Definition cached_usage : gmap string Z :=
  {[ "input_tokens" := 5%Z; "output_tokens" := 3%Z; "cache_read_input_tokens" := 100%Z ]}.

Definition plain_usage : gmap string Z :=
  {[ "input_tokens" := 5%Z; "output_tokens" := 3%Z ]}.

Definition user_turn : pydict := [("role", VStr "user"); ("content", VStr "Hi")].

Definition fresh_hook (auto_show : bool) : hooks.visualize :=
  fst (hooks.__init__ None auto_show).

Definition always_returns (response : value) : bool := true.

(** * Properties *)

(** ** Strings *)

Lemma str_app_nil (b : string) : "" +:+ b = b.
Proof. reflexivity. Qed.

Lemma str_app_cons (c : ascii) (a b : string) : String c a +:+ b = String c (a +:+ b).
Proof. reflexivity. Qed.

Lemma str_take_length (n : nat) (s : string) :
  String.length (str_take n s) = n `min` String.length s.
Proof.
  revert s; induction n as [|n IH]; intros [|c s]; simpl; auto.
Qed.

Lemma str_take_drop (n : nat) (s : string) : str_take n s +:+ str_drop n s = s.
Proof.
  revert s; induction n as [|n IH]; intros [|c s]; simpl; auto.
  rewrite str_app_cons. f_equal. apply IH.
Qed.

Lemma str_length_app (a b : string) :
  String.length (a +:+ b) = String.length a + String.length b.
Proof.
  induction a as [|c a IH]; [done|].
  rewrite str_app_cons. simpl. by rewrite IH.
Qed.

Lemma str_app_inv_head (a b c : string) : a +:+ b = a +:+ c → b = c.
Proof.
  induction a as [|x a IH]; [done|].
  rewrite !str_app_cons. intros [= H]. auto.
Qed.

Lemma occ_app (c : ascii) (a b : string) : occ c (a +:+ b) = occ c a + occ c b.
Proof.
  induction a as [|x a IH]; [done|].
  rewrite str_app_cons. simpl. rewrite IH. lia.
Qed.

Lemma str_eqb_empty_false (s : string) : s ≠ "" → String.eqb s "" = false.
Proof. intros H. by apply String.eqb_neq. Qed.

(** ** Truncation *)

Lemma truncate_to_str (limit : nat) (marker s : string) :
  truncate_to limit marker (VStr s) = Some (VStr (truncation_policy marker limit s)).
Proof.
  unfold truncate_to, truncation_policy; simpl.
  destruct (Nat.ltb_spec limit (String.length s)) as [H|H];
    destruct (Nat.leb_spec (String.length s) limit) as [H'|H']; simpl; auto; lia.
Qed.

Lemma truncation_policy_short (marker : string) (limit : nat) (s : string) :
  (String.length s ≤ limit)%nat → truncation_policy marker limit s = s.
Proof.
  intros H. unfold truncation_policy.
  by destruct (Nat.leb_spec (String.length s) limit); [|lia].
Qed.

Lemma truncation_policy_long (marker : string) (limit : nat) (s : string) :
  (limit < String.length s)%nat →
  truncation_policy marker limit s = str_take limit s +:+ marker.
Proof.
  intros H. unfold truncation_policy.
  by destruct (Nat.leb_spec (String.length s) limit); [lia|].
Qed.

(** ** What a renderer does to the tree it is given *)

Ltac split_bind H :=
  repeat match type of H with
         | mbind _ _ = Some _ => apply bind_Some in H as (? & ? & H)
         | (if ?b then _ else _) = Some _ => destruct b
         | match ?x with _ => _ end = Some _ => destruct x
         end.

Lemma render_text_content_adds content tree th tree' :
  render_text_content content tree th = Some tree' → adds_at_most_one tree tree'.
Proof.
  unfold render_text_content, adds_at_most_one. intros H.
  split_bind H; simplify_eq; eauto.
Qed.

Ltac last_add H :=
  cbv zeta in H;
  repeat match type of H with
         | mbind _ _ = Some _ => apply bind_Some in H as (? & _ & H)
         | (let '(_, _) := ?p in _) = Some _ => destruct p
         end;
  injection H as <-; right; eauto.

Lemma render_tool_use_adds content tree th tree' :
  render_tool_use content tree th = Some tree' → adds_at_most_one tree tree'.
Proof. unfold render_tool_use. intros H. last_add H. Qed.

Lemma render_server_tool_use_adds content tree th tree' :
  render_server_tool_use content tree th = Some tree' → adds_at_most_one tree tree'.
Proof. unfold render_server_tool_use. intros H. last_add H. Qed.

Lemma render_tool_result_adds content tree th tree' :
  render_tool_result content tree th = Some tree' → adds_at_most_one tree tree'.
Proof. unfold render_tool_result. intros H. last_add H. Qed.

Lemma render_code_execution_result_adds content tree th tree' :
  render_code_execution_result content tree th = Some tree' →
  adds_at_most_one tree tree'.
Proof.
  unfold render_code_execution_result. intros H.
  destruct (dict_get_default (data content) "content" (VDict [])); last_add H.
Qed.

Lemma render_content_block_adds content tree th tree' :
  render_content_block content tree th = Some tree' → adds_at_most_one tree tree'.
Proof.
  unfold render_content_block. intros H.
  repeat match type of H with
         | (if ?b then _ else _) = Some _ => destruct b
         end;
    eauto using render_text_content_adds, render_tool_use_adds, render_tool_result_adds,
      render_server_tool_use_adds, render_code_execution_result_adds.
  last_add H.
Qed.

(** Either way the label of the tree stays and its children are kept in
    front. *)
Lemma adds_at_most_one_leaf (label : renderable) (tree' : Tree) :
  adds_at_most_one (leaf label) tree' → ∃ kids, tree' = Node label kids.
Proof. intros [->|[node ->]]; eauto. Qed.

Lemma tree_label_add (t c : Tree) : tree_label (add t c) = tree_label t.
Proof. by destruct t. Qed.

Lemma for_each_keeps_label {A : Type} (body : Tree → A → option Tree) :
  (∀ s x s', body s x = Some s' → tree_label s' = tree_label s) →
  ∀ l s s', for_each body s l = Some s' → tree_label s' = tree_label s.
Proof.
  intros Hbody. induction l as [|x l IH]; intros s s' H; simpl in H.
  - by injection H as <-.
  - apply bind_Some in H as (s1 & H1 & H). apply IH in H. apply Hbody in H1. congruence.
Qed.

Lemma render_tool_result_item_keeps_label th s item s' :
  render_tool_result_item th s item = Some s' → tree_label s' = tree_label s.
Proof.
  unfold render_tool_result_item. intros H.
  split_bind H; simplify_eq; by rewrite ?tree_label_add.
Qed.

(** ** Which blocks are rendered *)

Lemma is_Some_bind {A B : Type} (m : option A) (f : A → option B) :
  is_Some m → (∀ a, is_Some (f a)) → is_Some (m ≫= f).
Proof. intros [a ->] Hf. apply Hf. Qed.

Lemma render_text_content_total content tree th :
  str_or_absent (dict_get (data content) "text") = true →
  is_Some (render_text_content content tree th).
Proof.
  unfold render_text_content, dict_get_default. intros H.
  destruct (dict_get (data content) "text") as [[]|]; try done; simpl.
  destruct (negb _); [|done]. by rewrite truncate_to_str.
Qed.

Lemma render_tool_use_total content tree th :
  dict_or_absent (dict_get (data content) "caller") = true →
  is_Some (render_tool_use content tree th).
Proof.
  unfold render_tool_use, dict_get_default. intros H.
  destruct (dict_get (data content) "caller") as [[]|]; try done; simpl.
  destruct d; done.
Qed.

Lemma render_tool_result_item_total th node item :
  item_as_expected item = true → is_Some (render_tool_result_item th node item).
Proof.
  unfold render_tool_result_item, item_as_expected, is_text_item. intros H.
  destruct item; try done.
  destruct (py_eq_str (dict_get d "type") "text"); [|done].
  simpl. unfold dict_get_default.
  destruct (dict_get d "text") as [[]|]; try done; simpl.
  destruct (negb _); [|done]. by rewrite truncate_to_str.
Qed.

Lemma for_each_tool_result_items_total th items :
  forallb item_as_expected items = true →
  ∀ node, is_Some (for_each (render_tool_result_item th) node items).
Proof.
  induction items as [|item items IH]; simpl; intros H node; [done|].
  apply andb_true_iff in H as [Hitem Hitems].
  destruct (render_tool_result_item_total th node item Hitem) as [node' ->]. simpl.
  by apply IH.
Qed.

Lemma render_tool_result_total content tree th :
  match dict_get (data content) "content" with
  | Some (VList items) => forallb item_as_expected items
  | _ => true
  end = true →
  is_Some (render_tool_result content tree th).
Proof.
  unfold render_tool_result. intros H. cbv zeta.
  set (node := if py_truthy (dict_get_default (data content) "tool_use_id" (VStr "")) then _ else _).
  clearbody node. unfold dict_get_default in *.
  destruct (dict_get (data content) "content") as [v|]; [|done]. simpl.
  destruct (py_truthy v) eqn:Htruthy; [|done].
  destruct v as [| | | | |items|]; try (rewrite truncate_to_str; done).
  destruct (for_each_tool_result_items_total th items H node) as [node' ->]. done.
Qed.

Lemma render_server_tool_use_total content tree th :
  dict_or_absent (dict_get (data content) "caller") = true →
  match dict_get (data content) "input" with
  | None => true
  | Some (VDict input) => str_or_absent (dict_get input "code")
  | Some _ => false
  end = true →
  is_Some (render_server_tool_use content tree th).
Proof.
  unfold render_server_tool_use, dict_get_default. intros Hcaller Hinput. cbv zeta.
  apply is_Some_bind; [|intros node; apply is_Some_bind; [|done]].
  - destruct (dict_get (data content) "caller") as [[| | | | | |caller]|]; try done.
    by destruct (py_truthy (default (VDict []) (Some (VDict caller)))).
  - destruct (dict_get (data content) "input") as [[| | | | | |input]|]; try done.
    destruct (py_truthy (default (VDict []) (Some (VDict input)))); [|done].
    change (default (VDict []) (Some (VDict input))) with (VDict input).
    unfold py_get, dict_get_default. simpl.
    destruct (dict_get input "code") as [[| | | |code| |]|]; try done. simpl.
    destruct (negb (String.eqb code "")); [|done]. by rewrite truncate_to_str.
Qed.

Lemma render_code_execution_result_total content tree th :
  match dict_get (data content) "content" with
  | Some (VDict nested) =>
      str_or_absent (dict_get nested "stdout") && str_or_absent (dict_get nested "stderr")
  | _ => true
  end = true →
  is_Some (render_code_execution_result content tree th).
Proof.
  unfold render_code_execution_result, dict_get_default. intros H.
  destruct (dict_get (data content) "content") as [[]|]; try done; simpl.
  apply andb_true_iff in H as [Hout Herr]. cbv zeta.
  destruct (dict_get d "stdout") as [[]|], (dict_get d "stderr") as [[]|];
    try done; simpl;
    repeat (destruct (negb (String.eqb _ "")); simpl; rewrite ?truncate_to_str; simpl);
    done.
Qed.

Lemma render_content_block_total content tree th :
  fields_as_expected content = true → is_Some (render_content_block content tree th).
Proof.
  unfold fields_as_expected, render_content_block. intros H.
  destruct (String.eqb (type content) "text");
    [by apply render_text_content_total|].
  destruct (String.eqb (type content) "tool_use");
    [by apply render_tool_use_total|].
  destruct (String.eqb (type content) "tool_result");
    [by apply render_tool_result_total|].
  destruct (String.eqb (type content) "server_tool_use").
  { apply andb_true_iff in H as [Hcaller Hinput].
    by apply render_server_tool_use_total. }
  destruct (String.eqb (type content) "code_execution_tool_result");
    [by apply render_code_execution_result_total|].
  done.
Qed.

Lemma for_each_render_block_total (th : ColorScheme) (cs : list ParsedContent) :
  Forall (λ c, fields_as_expected c = true) cs →
  ∀ start node, is_Some (for_each (render_block th) node (enumerate cs start)).
Proof.
  induction 1 as [|c cs Hc Hcs IH]; intros start node; simpl; [done|].
  unfold render_block at 1.
  destruct (render_content_block_total c (leaf (block_label th start)) th Hc)
    as [block Hblock].
  unfold block_label in Hblock. rewrite Hblock. simpl. apply IH.
Qed.

Lemma message_tree_total (message : ParsedMessage) (th : ColorScheme) :
  Forall (λ c, fields_as_expected c = true) (content message) →
  is_Some (message_tree message th).
Proof.
  intros Hcontent. unfold message_tree. cbv zeta.
  destruct (content message) as [|c cs] eqn:Hcs; [done|].
  apply is_Some_bind; [|done]. by apply for_each_render_block_total.
Qed.

(** ** What is printed *)

(** The run of [visualize_message], call by call. *)
Lemma visualize_message_cases (returns : printed → bool) (message : ParsedMessage)
    (th : ColorScheme) :
  visualize_message returns message th =
    match message_tree message th with
    | None => {| console := []; raised := true |}
    | Some tree =>
        let main := PrintPanel (main_panel tree th) in
        let table := PrintPanel (usage_panel (usage message) th) in
        if negb (returns main) then {| console := []; raised := true |}
        else if decide (usage message = ∅) then {| console := [main]; raised := false |}
        else if negb (returns PrintBlank) then {| console := [main]; raised := true |}
        else if returns table then {| console := [main; PrintBlank; table]; raised := false |}
        else {| console := [main; PrintBlank]; raised := true |}
    end.
Proof.
  unfold visualize_message, console_print, main_panel, usage_panel.
  destruct (message_tree message th) as [tree|]; [|done]. cbv zeta. simpl.
  destruct (returns (PrintPanel _)); simpl;
    destruct (decide (usage message = ∅)); simpl; try done;
    destruct (returns PrintBlank); simpl; try done;
    destruct (returns (PrintPanel _)); done.
Qed.

(** ** The classifier *)

Lemma unknown_kind_eqb (k : string) :
  k ∉ known_kinds →
  String.eqb k "text" = false ∧ String.eqb k "tool_use" = false
  ∧ String.eqb k "tool_result" = false ∧ String.eqb k "server_tool_use" = false
  ∧ String.eqb k "code_execution_tool_result" = false.
Proof.
  intros H. repeat split; apply String.eqb_neq; intros ->; apply H;
    unfold known_kinds; set_solver.
Qed.

(** C1. A block whose kind is none of text, tool_use, tool_result,
    server_tool_use and code_execution_tool_result is rendered without an
    exception: the tree gets one node, labelled "Unknown Type:" followed by
    the kind string as it is, with one child, the JSON serialization of the
    whole payload (cut at 500 characters). *)
Theorem unknown_kind_renders_fallback (content : ParsedContent) (tree : Tree)
    (th : ColorScheme) :
  type content ∉ known_kinds →
  render_content_block content tree th =
    Some (add tree
            (Node (Markup (tag (theme.unknown_type th) "Unknown Type:" +:+ " "
                           +:+ type content))
                  [leaf (Syntax (VStr (format_json (VDict (data content)) 500)) "json"
                           (theme.json_theme th) false)])).
Proof.
  intros H. destruct (unknown_kind_eqb _ H) as (H1 & H2 & H3 & H4 & H5).
  unfold render_content_block. by rewrite H1, H2, H3, H4, H5.
Qed.

Lemma unknown_kind_renders_fallback_witness :
  (type custom_v2 ∉ known_kinds)
  ∧ render_content_block custom_v2 (leaf (Markup "Block 1")) DARK_THEME =
      Some (Node (Markup "Block 1")
              [Node (Markup "[bright_magenta]Unknown Type:[/bright_magenta] custom_v2")
                 [leaf (Syntax
                          (VStr ("{" +:+ nl +:+ "  " +:+ String dquote "type" +:+ String dquote ": "
                                 +:+ String dquote "custom_v2" +:+ String dquote "," +:+ nl
                                 +:+ "  " +:+ String dquote "foo" +:+ String dquote ": "
                                 +:+ String dquote "bar" +:+ String dquote nl +:+ "}"))
                          "json" "monokai" false)]]).
Proof.
  assert (H : type custom_v2 ∉ known_kinds).
  { apply (bool_decide_unpack _). vm_compute. exact I. }
  split; [exact H|].
  exact (unknown_kind_renders_fallback custom_v2 (leaf (Markup "Block 1")) DARK_THEME H).
Defined.

(** ** The text renderer *)

Lemma render_text_content_str (content : ParsedContent) (tree : Tree) (th : ColorScheme)
    (s : string) :
  dict_get (data content) "text" = Some (VStr s) → s ≠ "" →
  render_text_content content tree th =
    Some (add tree (text_node th (truncation_policy text_marker 1000 s))).
Proof.
  intros Hget Hs. unfold render_text_content, dict_get_default.
  rewrite Hget. simpl. rewrite (str_eqb_empty_false _ Hs). simpl.
  by rewrite truncate_to_str.
Qed.

(** C2. The text renderer adds nothing to the tree when the [text] field is
    absent or the empty string. For a non-empty text it adds one "Text" node
    holding the text: unchanged when it has at most 1000 characters, and
    otherwise its first 1000 characters followed by the truncation marker. *)
Theorem text_block_rendering (content : ParsedContent) (tree : Tree) (th : ColorScheme) :
  (dict_get (data content) "text" = None ∨ dict_get (data content) "text" = Some (VStr "") →
   render_text_content content tree th = Some tree)
  ∧ (∀ s : string,
       dict_get (data content) "text" = Some (VStr s) → s ≠ "" →
       ((String.length s ≤ 1000)%nat →
        render_text_content content tree th = Some (add tree (text_node th s)))
       ∧ ((1000 < String.length s)%nat →
          render_text_content content tree th =
            Some (add tree (text_node th (str_take 1000 s +:+ text_marker)))
          ∧ String.length (str_take 1000 s) = 1000
          ∧ str_take 1000 s +:+ str_drop 1000 s = s)).
Proof.
  split.
  - intros [H|H]; unfold render_text_content, dict_get_default; by rewrite H.
  - intros s Hget Hs. rewrite (render_text_content_str _ _ _ _ Hget Hs). split; intros Hlen.
    + by rewrite truncation_policy_short.
    + rewrite truncation_policy_long by done. split; [done|]. split.
      * rewrite str_take_length. lia.
      * apply str_take_drop.
Qed.

Lemma text_block_rendering_witness :
  render_text_content {| type := "text"; data := [("type", VStr "text")] |}
    (leaf (Markup "Block 1")) DARK_THEME = Some (leaf (Markup "Block 1"))
  ∧ render_text_content (text_block "hi") (leaf (Markup "Block 1")) DARK_THEME =
      Some (Node (Markup "Block 1")
              [Node (Markup "[bright_cyan]Text[/bright_cyan]")
                 [leaf (Text (VStr "hi") "white")]])
  ∧ render_text_content (text_block (str_repeat "a" 1001)) (leaf (Markup "Block 1")) DARK_THEME =
      Some (Node (Markup "Block 1")
              [Node (Markup "[bright_cyan]Text[/bright_cyan]")
                 [leaf (Text (VStr (str_repeat "a" 1000 +:+ nl +:+ "... (truncated)")) "white")]]).
Proof.
  split; [|split].
  - apply (proj1 (text_block_rendering _ _ _)). left. reflexivity.
  - assert (Hne : "hi" ≠ "") by discriminate.
    assert (Hlen : (String.length "hi" ≤ 1000)%nat) by (simpl; lia).
    exact (proj1 (proj2 (text_block_rendering (text_block "hi")
                           (leaf (Markup "Block 1")) DARK_THEME)
                    "hi" eq_refl Hne) Hlen).
  - assert (Hlen : (1000 < String.length (str_repeat "a" 1001))%nat).
    { apply Nat.ltb_lt. vm_compute. reflexivity. }
    assert (Hne : str_repeat "a" 1001 ≠ "") by discriminate.
    exact (proj1 (proj2 (proj2 (text_block_rendering
                                  (text_block (str_repeat "a" 1001))
                                  (leaf (Markup "Block 1")) DARK_THEME)
                           (str_repeat "a" 1001) eq_refl Hne) Hlen)).
Defined.

(** ** The caller line of the two tool-use renderers *)

(** C3. On the caller tags "code_execution_20250825" and "direct" the
    tool_use renderer writes the phrases "code execution environment" and
    "model (direct)" on the Caller line, while the server_tool_use renderer
    writes the tag itself: it has no label mapping. *)
Theorem server_tool_use_caller_is_not_mapped :
  render_tool_use (caller_block "tool_use" "code_execution_20250825")
    (leaf (Markup "Block 1")) DARK_THEME =
    Some (Node (Markup "Block 1")
            [Node (Markup ("[bright_yellow]Tool Use:[/bright_yellow] "
                           +:+ "[bold bright_yellow]unknown[/bold bright_yellow]"))
               [leaf (Markup "[bright_black]Caller:[/bright_black] code execution environment")]])
  ∧ render_server_tool_use (caller_block "server_tool_use" "code_execution_20250825")
      (leaf (Markup "Block 1")) DARK_THEME =
      Some (Node (Markup "Block 1")
              [Node (Markup "[bright_yellow]Server Tool Use[/bright_yellow]")
                 [leaf (Markup "[bright_black]Caller:[/bright_black] code_execution_20250825")]])
  ∧ render_tool_use (caller_block "tool_use" "direct")
      (leaf (Markup "Block 1")) DARK_THEME =
      Some (Node (Markup "Block 1")
              [Node (Markup ("[bright_yellow]Tool Use:[/bright_yellow] "
                             +:+ "[bold bright_yellow]unknown[/bold bright_yellow]"))
                 [leaf (Markup "[bright_black]Caller:[/bright_black] model (direct)")]])
  ∧ render_server_tool_use (caller_block "server_tool_use" "direct")
      (leaf (Markup "Block 1")) DARK_THEME =
      Some (Node (Markup "Block 1")
              [Node (Markup "[bright_yellow]Server Tool Use[/bright_yellow]")
                 [leaf (Markup "[bright_black]Caller:[/bright_black] direct")]]).
Proof. repeat split; vm_compute; reflexivity. Qed.

(** ** Status lines *)

(** The letter E occurs an odd number of times in an "Error" status and an
    even number of times in a "Success" status, whatever the styles are; the
    letter S tells the two statuses of a code execution apart likewise. *)
Lemma occ_tag_E (style text : string) :
  occ "E" (tag style text) = 2 * occ "E" style + occ "E" text.
Proof. unfold tag. rewrite !occ_app. simpl. lia. Qed.

Lemma occ_tag_S (style text : string) :
  occ "S" (tag style text) = 2 * occ "S" style + occ "S" text.
Proof. unfold tag. rewrite !occ_app. simpl. lia. Qed.

Lemma error_is_not_success (e s : string) : tag e "Error" ≠ tag s "Success".
Proof.
  intros H. apply (f_equal (occ "E")) in H. rewrite !occ_tag_E in H.
  simpl in H. lia.
Qed.

Lemma exit_success_is_not_error (s e code : string) :
  tag s ("Success (exit " +:+ code +:+ ")") ≠ tag e ("Error (exit " +:+ code +:+ ")").
Proof.
  intros H. apply (f_equal (occ "S")) in H. rewrite !occ_tag_S, !occ_app in H.
  simpl in H. lia.
Qed.

(** C5. The node a rendered tool_result block adds is labelled
    "Tool Result:" followed by a status, and the status is "Error" exactly
    when the [is_error] field is true, and "Success" otherwise, in
    particular when the field is absent; the [content] field has no part in
    it. The block is rendered whenever the text items of a list-valued
    [content] carry strings, whatever else [content] is. *)
Theorem tool_result_status (content : ParsedContent) (tree : Tree) (th : ColorScheme) :
  (∀ tree', render_tool_result content tree th = Some tree' →
     ∃ status node,
       tree' = add tree node
       ∧ tree_label node =
           Markup (tag (theme.tool_result_label th) "Tool Result:" +:+ " " +:+ status)
       ∧ (status = tag (theme.error th) "Error"
          ↔ py_truthy (dict_get_default (data content) "is_error" (VBool false)) = true)
       ∧ (status = tag (theme.success th) "Success"
          ↔ py_truthy (dict_get_default (data content) "is_error" (VBool false)) = false)
       ∧ (dict_get (data content) "is_error" = Some (VBool true) →
          status = tag (theme.error th) "Error")
       ∧ (dict_get (data content) "is_error" = None
          ∨ dict_get (data content) "is_error" = Some (VBool false) →
          status = tag (theme.success th) "Success"))
  ∧ (match dict_get (data content) "content" with
     | Some (VList items) => forallb item_as_expected items
     | _ => true
     end = true →
     is_Some (render_tool_result content tree th)).
Proof.
  split; [|apply render_tool_result_total].
  unfold render_tool_result. intros tree' H. cbv zeta in H.
  apply bind_Some in H as (node & Hnode & H). injection H as <-.
  set (is_error := dict_get_default (data content) "is_error" (VBool false)) in *.
  set (status := if py_truthy is_error then tag (theme.error th) "Error"
                 else tag (theme.success th) "Success") in *.
  exists status, node. split; [done|]. split.
  - set (head := leaf (Markup (tag (theme.tool_result_label th) "Tool Result:" +:+ " "
                               +:+ status))) in *.
    assert (Hlabel : tree_label node = tree_label head).
    { destruct (py_truthy (dict_get_default (data content) "tool_use_id" (VStr "")));
        split_bind Hnode; simplify_eq; rewrite ?tree_label_add; try done.
      all: try (eapply for_each_keeps_label in Hnode;
                [rewrite Hnode, ?tree_label_add; done
                |apply render_tool_result_item_keeps_label]). }
    by rewrite Hlabel.
  - assert (Hdef : ∀ o, dict_get (data content) "is_error" = o →
                        is_error = default (VBool false) o).
    { by intros o <-. }
    subst status. destruct (py_truthy is_error) eqn:Htruthy.
    + repeat split; try done.
      * intros Heq. by apply error_is_not_success in Heq.
      * intros [Hn|Hf]; [apply Hdef in Hn|apply Hdef in Hf];
          rewrite ?Hn, ?Hf in Htruthy; done.
    + repeat split; try done.
      * intros Heq. symmetry in Heq. by apply error_is_not_success in Heq.
      * intros Ht. apply Hdef in Ht. rewrite Ht in Htruthy. done.
Qed.

Lemma tool_result_status_witness :
  ∃ tree' node,
    render_tool_result failed_result (leaf (Markup "Block 1")) DARK_THEME = Some tree'
    ∧ tree' = add (leaf (Markup "Block 1")) node
    ∧ tree_label node =
        Markup "[bright_yellow]Tool Result:[/bright_yellow] [bright_red]Error[/bright_red]".
Proof.
  destruct (tool_result_status failed_result (leaf (Markup "Block 1")) DARK_THEME)
    as [Hstatus Hrendered].
  destruct (Hrendered eq_refl) as [tree' Hrender].
  destruct (Hstatus tree' Hrender)
    as (status & node & Htree & Hlabel & _ & _ & Herror & _).
  exists tree', node. split; [exact Hrender|]. split; [exact Htree|].
  rewrite Hlabel, (Herror eq_refl). reflexivity.
Defined.

(** C6. When a code_execution_tool_result block whose nested [content] is a
    dict (or absent, which reads as the empty dict) is rendered, the node it
    adds is labelled "Code Execution Result:" followed by a status that
    always shows the return code: "Success (exit N)" exactly when the return
    code equals 0 (it is 0 when absent) and "Error (exit N)" otherwise. The
    block is rendered whenever stdout and stderr are strings or absent. With
    return code 0 and no stdout and no stderr, or empty ones, it is rendered
    as "Success (exit 0)" with the one child "(no output)". *)
Theorem code_execution_status (content : ParsedContent) (tree : Tree) (th : ColorScheme)
    (nested : pydict) :
  dict_get_default (data content) "content" (VDict []) = VDict nested →
  let return_code := dict_get_default nested "return_code" (VInt 0) in
  let header := tag (theme.tool_result_label th) "Code Execution Result:" in
  let success := tag (theme.success th) ("Success (exit " +:+ py_str return_code +:+ ")") in
  let error := tag (theme.error th) ("Error (exit " +:+ py_str return_code +:+ ")") in
  (∀ tree', render_code_execution_result content tree th = Some tree' →
     ∃ status node,
       tree' = add tree node
       ∧ tree_label node = Markup (header +:+ " " +:+ status)
       ∧ (status = success ∨ status = error)
       ∧ (status = success ↔ py_eq_zero return_code = true)
       ∧ (∀ z : Z, return_code = VInt z →
            (status = tag (theme.success th) ("Success (exit " +:+ pretty z +:+ ")")
             ↔ z = 0%Z)
            ∧ (status = tag (theme.error th) ("Error (exit " +:+ pretty z +:+ ")")
               ↔ z ≠ 0%Z)))
  ∧ (str_or_absent (dict_get nested "stdout") = true →
     str_or_absent (dict_get nested "stderr") = true →
     is_Some (render_code_execution_result content tree th))
  ∧ (dict_get nested "return_code" = None ∨ dict_get nested "return_code" = Some (VInt 0) →
     dict_get nested "stdout" = None ∨ dict_get nested "stdout" = Some (VStr "") →
     dict_get nested "stderr" = None ∨ dict_get nested "stderr" = Some (VStr "") →
     render_code_execution_result content tree th =
       Some (add tree
               (Node (Markup (header +:+ " " +:+ tag (theme.success th) "Success (exit 0)"))
                  [leaf (Markup (tag (theme.metadata_key th) "(no output)"))]))).
Proof.
  intros Hnested return_code header success error. split; [|split].
  - intros tree' H. unfold render_code_execution_result in H. rewrite Hnested in H.
    cbv zeta in H. fold return_code in H.
    set (status := if py_eq_zero return_code then success else error).
    set (head := leaf (Markup (header +:+ " " +:+ status))).
    apply bind_Some in H as ([node1 stdout] & H1 & H).
    apply bind_Some in H as ([node2 stderr] & H2 & H). injection H as <-.
    assert (Hl1 : tree_label node1 = tree_label head).
    { split_bind H1; simplify_eq; by rewrite ?tree_label_add. }
    assert (Hl2 : tree_label node2 = tree_label head).
    { rewrite <- Hl1. split_bind H2; simplify_eq; by rewrite ?tree_label_add. }
    exists status. eexists. split; [reflexivity|]. split.
    { destruct (negb (py_truthy stdout) && negb (py_truthy stderr));
        by rewrite ?tree_label_add, Hl2. }
    subst status. destruct (py_eq_zero return_code) eqn:Hzero.
    + split; [by left|]. split; [done|]. intros z Hz. rewrite Hz in Hzero.
      simpl in Hzero. apply Z.eqb_eq in Hzero as ->.
      subst success error. rewrite Hz. simpl. split; split; try done.
      intros Heq. by apply exit_success_is_not_error in Heq.
    + split; [by right|]. split.
      { split; [|done]. intros Heq. symmetry in Heq.
        by apply exit_success_is_not_error in Heq. }
      intros z Hz. rewrite Hz in Hzero. simpl in Hzero. apply Z.eqb_neq in Hzero.
      subst success error. rewrite Hz. simpl. split; split; try done.
      intros Heq. symmetry in Heq. by apply exit_success_is_not_error in Heq.
  - intros Hout Herr. unfold dict_get_default in Hnested.
    destruct (dict_get (data content) "content") as [v|] eqn:Hcontent; simpl in Hnested.
    + subst v. apply render_code_execution_result_total. rewrite Hcontent.
      by rewrite Hout, Herr.
    + apply render_code_execution_result_total. by rewrite Hcontent.
  - intros Hrc Hout Herr. unfold render_code_execution_result. rewrite Hnested.
    unfold dict_get_default.
    destruct Hrc as [-> | ->], Hout as [-> | ->], Herr as [-> | ->]; reflexivity.
Qed.

Lemma code_execution_status_witness :
  render_code_execution_result silent_success (leaf (Markup "Block 1")) DARK_THEME =
    Some (Node (Markup "Block 1")
            [Node (Markup ("[bright_yellow]Code Execution Result:[/bright_yellow] "
                           +:+ "[bright_green]Success (exit 0)[/bright_green]"))
               [leaf (Markup "[bright_black](no output)[/bright_black]")]])
  ∧ ∃ tree' node,
      render_code_execution_result failed_run (leaf (Markup "Block 1")) DARK_THEME = Some tree'
      ∧ tree' = add (leaf (Markup "Block 1")) node
      ∧ tree_label node =
          Markup ("[bright_yellow]Code Execution Result:[/bright_yellow] "
                  +:+ "[bright_red]Error (exit 1)[/bright_red]").
Proof.
  split.
  - exact (proj2 (proj2 (code_execution_status silent_success (leaf (Markup "Block 1"))
                           DARK_THEME _ eq_refl))
             (or_intror eq_refl) (or_intror eq_refl) (or_intror eq_refl)).
  - destruct (code_execution_status failed_run (leaf (Markup "Block 1")) DARK_THEME
                _ eq_refl) as (Hstatus & Hrendered & _).
    destruct (Hrendered eq_refl eq_refl) as [tree' Hrender].
    destruct (Hstatus tree' Hrender) as (status & node & Htree & Hlabel & _ & _ & Hint).
    exists tree', node. split; [exact Hrender|]. split; [exact Htree|].
    rewrite Hlabel. destruct (Hint 1%Z eq_refl) as [_ [_ Herr]].
    rewrite (Herr ltac:(discriminate)). reflexivity.
Defined.

(** ** Rendering without an exception *)




(** ** The input of a server tool use *)

Lemma render_server_tool_use_input content tree th input :
  dict_get (data content) "input" = Some (VDict input) → input ≠ [] →
  dict_or_absent (dict_get (data content) "caller") = true →
  str_or_absent (dict_get input "code") = true →
  ∃ head,
    tree_label head = Markup (tag (theme.tool_use_label th) "Server Tool Use")
    ∧ render_server_tool_use content tree th =
        Some (add tree (add head (server_input_node th input))).
Proof.
  intros Hinput Hne Hcaller Hcode.
  unfold render_server_tool_use, dict_get_default. cbv zeta. rewrite Hinput.
  set (node0 := if py_truthy (default (VStr "") (dict_get (data content) "id")) then _ else _).
  assert (Hnode0 : tree_label node0 =
                   Markup (tag (theme.tool_use_label th) "Server Tool Use")).
  { subst node0. by destruct (py_truthy _). }
  clearbody node0.
  set (caller_part := if py_truthy (default (VDict []) (dict_get (data content) "caller"))
                      then _ else _).
  assert (Hhead : ∃ head, caller_part = Some head ∧ tree_label head = tree_label node0).
  { subst caller_part.
    destruct (dict_get (data content) "caller") as [[| | | | | |caller]|]; try done.
    - destruct (py_truthy (default (VDict []) (Some (VDict caller)))).
      + eexists. split; [reflexivity|]. by rewrite tree_label_add.
      + by eexists.
    - by eexists. }
  destruct Hhead as (head & -> & Hlabel).
  exists head. split; [congruence|]. simpl.
  destruct input as [|kv input']; [done|]. set (input := kv :: input') in *.
  change (py_truthy (VDict input)) with true. cbv iota.
  unfold py_get, dict_get_default, server_input_node.
  destruct (dict_get input "code") as [[| | | |code| |]|]; try done. simpl.
  destruct (String.eqb code ""); [done|]. simpl. by rewrite truncate_to_str.
Qed.

(** C8, as the code has it. For a server_tool_use block with a non-empty
    [input] dict: when [input.code] is a non-empty string, the renderer adds
    a "Code:" node holding the code, cut at 1000 characters with the text
    marker, as Python source with line numbers; when [input] has no [code],
    or an empty one, it adds the "Input:" node holding the JSON
    serialization of the whole input cut at 500 characters, which is the
    node the tool_use renderer adds for its input. *)
Theorem server_tool_use_code_or_input (content : ParsedContent) (tree : Tree)
    (th : ColorScheme) (input : pydict) :
  dict_get (data content) "input" = Some (VDict input) → input ≠ [] →
  dict_or_absent (dict_get (data content) "caller") = true →
  (∀ code : string,
     dict_get input "code" = Some (VStr code) → code ≠ "" →
     ∃ head,
       tree_label head = Markup (tag (theme.tool_use_label th) "Server Tool Use")
       ∧ render_server_tool_use content tree th =
           Some (add tree (add head (code_node th (truncation_policy text_marker 1000 code)))))
  ∧ (dict_get input "code" = None ∨ dict_get input "code" = Some (VStr "") →
     ∃ head,
       tree_label head = Markup (tag (theme.tool_use_label th) "Server Tool Use")
       ∧ render_server_tool_use content tree th =
           Some (add tree (add head (input_node th (VDict input)))))
  ∧ ∃ head, render_tool_use content tree th =
              Some (add tree (add head (input_node th (VDict input)))).
Proof.
  intros Hinput Hne Hcaller. split; [|split].
  - intros code Hcode Hcode_ne.
    destruct (render_server_tool_use_input content tree th input Hinput Hne Hcaller)
      as (head & Hlabel & Hrender); [by rewrite Hcode|].
    exists head. split; [done|]. rewrite Hrender. unfold server_input_node.
    by rewrite Hcode, (str_eqb_empty_false _ Hcode_ne).
  - intros Hcode.
    destruct (render_server_tool_use_input content tree th input Hinput Hne Hcaller)
      as (head & Hlabel & Hrender); [by destruct Hcode as [-> | ->]|].
    exists head. split; [done|]. rewrite Hrender. unfold server_input_node.
    by destruct Hcode as [-> | ->].
  - unfold render_tool_use, dict_get_default. cbv zeta. rewrite Hinput.
    destruct input as [|kv input']; [done|]. set (input := kv :: input') in *.
    change (py_truthy (default (VDict []) (Some (VDict input)))) with true. cbv iota.
    destruct (dict_get (data content) "caller") as [[| | | | | |caller]|]; try done.
    + destruct (py_truthy (default (VDict []) (Some (VDict caller)))); by eexists.
    + by eexists.
Qed.

Lemma server_tool_use_code_or_input_witness :
  (∃ head,
     tree_label head = Markup "[bright_yellow]Server Tool Use[/bright_yellow]"
     ∧ render_server_tool_use (server_block [("code", VStr "print(1)")])
         (leaf (Markup "Block 1")) DARK_THEME =
         Some (add (leaf (Markup "Block 1"))
                 (add head
                    (Node (Markup "[bright_green]Code:[/bright_green]")
                       [leaf (Syntax (VStr "print(1)") "python" "monokai" true)]))))
  ∧ (∃ head,
       tree_label head = Markup "[bright_yellow]Server Tool Use[/bright_yellow]"
       ∧ render_server_tool_use (server_block [("query", VStr "x")])
           (leaf (Markup "Block 1")) DARK_THEME =
           Some (add (leaf (Markup "Block 1"))
                   (add head (input_node DARK_THEME (VDict [("query", VStr "x")]))))).
Proof.
  split.
  - assert (Hne : [("code", VStr "print(1)")] ≠ ([] : pydict)) by discriminate.
    assert (Hcode : "print(1)" ≠ "") by discriminate.
    exact (proj1 (server_tool_use_code_or_input
                    (server_block [("code", VStr "print(1)")])
                    (leaf (Markup "Block 1")) DARK_THEME _ eq_refl Hne eq_refl)
             "print(1)" eq_refl Hcode).
  - assert (Hne : [("query", VStr "x")] ≠ ([] : pydict)) by discriminate.
    exact (proj1 (proj2 (server_tool_use_code_or_input
                           (server_block [("query", VStr "x")])
                           (leaf (Markup "Block 1")) DARK_THEME _ eq_refl Hne eq_refl))
             (or_introl eq_refl)).
Defined.

(** A server_tool_use block whose [input.code] is the empty string: the
    [code] field is present, and the renderer adds the "Input:" node with the
    JSON serialization of the input, not a "Code:" node. *)
Lemma server_tool_use_empty_code_renders_input :
  dict_get [("code", VStr "")] "code" = Some (VStr "")
  ∧ render_server_tool_use
      {| type := "server_tool_use";
         data := [("type", VStr "server_tool_use"); ("input", VDict [("code", VStr "")])] |}
      (leaf (Markup "Block 1")) DARK_THEME =
      Some (Node (Markup "Block 1")
              [Node (Markup "[bright_yellow]Server Tool Use[/bright_yellow]")
                 [Node (Markup "[bright_green]Input:[/bright_green]")
                    [leaf (Syntax
                             (VStr ("{" +:+ nl +:+ "  " +:+ String dquote "code"
                                    +:+ String dquote ": " +:+ String dquote ""
                                    +:+ String dquote nl +:+ "}"))
                             "json" "monokai" false)]]]).
Proof. split; reflexivity. Qed.

(** ** One policy, two markers *)

Lemma format_json_policy (data : value) (max_length : nat) :
  format_json data (Z.of_nat max_length)
  = truncation_policy json_marker max_length (json_dumps data).
Proof.
  unfold format_json, truncation_policy, str_slice_to. cbv zeta.
  destruct (Z.ltb_spec (Z.of_nat max_length) 0); [lia|]. rewrite Nat2Z.id.
  destruct (Z.ltb_spec (Z.of_nat max_length) (Z.of_nat (String.length (json_dumps data))));
    destruct (Nat.leb_spec (String.length (json_dumps data)) max_length); auto; lia.
Qed.

Lemma format_json_default (data : value) :
  format_json data 500 = truncation_policy json_marker 500 (json_dumps data).
Proof. apply (format_json_policy data 500). Qed.

Lemma truncation_policy_nonempty marker limit s :
  s ≠ "" → String.eqb (truncation_policy (String newline marker) limit s) "" = false.
Proof.
  intros Hs. apply String.eqb_neq. unfold truncation_policy.
  destruct (String.length s <=? limit)%nat; [done|].
  intros H. apply (f_equal String.length) in H. rewrite str_length_app in H.
  simpl in H. lia.
Qed.

Lemma render_tool_result_plain content tree th v :
  dict_get (data content) "content" = Some v → py_truthy v = true →
  (∀ items, v ≠ VList items) →
  ∃ head, render_tool_result content tree th =
            Some (add tree
                    (add head (output_node th (truncation_policy text_marker 1000 (py_str v))))).
Proof.
  intros Hcontent Htruthy Hplain. unfold render_tool_result, dict_get_default. cbv zeta.
  rewrite Hcontent. simpl. rewrite Htruthy.
  destruct v as [| | | | |items|]; try (by destruct (Hplain items));
    rewrite truncate_to_str; simpl; by eexists.
Qed.

Lemma render_tool_result_str content tree th s :
  dict_get (data content) "content" = Some (VStr s) → s ≠ "" →
  ∃ head, render_tool_result content tree th =
            Some (add tree (add head (output_node th (truncation_policy text_marker 1000 s)))).
Proof.
  intros Hcontent Hs.
  apply (render_tool_result_plain content tree th (VStr s) Hcontent); [|done].
  simpl. by rewrite (str_eqb_empty_false _ Hs).
Qed.

Lemma extend_nil (tree : Tree) : extend tree [] = tree.
Proof. destruct tree. unfold extend. simpl. by rewrite app_nil_r. Qed.

Lemma extend_extend (tree : Tree) (a b : list Tree) :
  extend (extend tree a) b = extend tree (a ++ b).
Proof. destruct tree. unfold extend. simpl. by rewrite app_assoc. Qed.

Lemma add_extend (tree node : Tree) : add tree node = extend tree [node].
Proof. by destruct tree. Qed.

Lemma render_tool_result_item_outputs (th : ColorScheme) (node : Tree) (item : value) :
  item_as_expected item = true →
  render_tool_result_item th node item = Some (extend node (item_outputs th item)).
Proof.
  intros Hitem. unfold render_tool_result_item, item_outputs. cbv zeta.
  destruct (is_text_item item) eqn:Htext; [|by rewrite add_extend].
  destruct item as [| | | | | |d]; try done. simpl in *. rewrite Htext in Hitem.
  unfold dict_get_default.
  destruct (dict_get d "text") as [[| | | |s| |]|]; try done; simpl.
  - destruct (String.eqb_spec s "") as [->|Hs]; simpl; [by rewrite extend_nil|].
    rewrite truncate_to_str. simpl. by rewrite add_extend.
  - by rewrite extend_nil.
Qed.

Lemma for_each_item_outputs (th : ColorScheme) (items : list value) :
  ∀ node,
    forallb item_as_expected items = true →
    for_each (render_tool_result_item th) node items
    = Some (extend node (concat (item_outputs th <$> items))).
Proof.
  induction items as [|item items IH]; intros node Hitems; simpl.
  - by rewrite extend_nil.
  - simpl in Hitems. apply andb_true_iff in Hitems as [Hitem Hitems].
    rewrite (render_tool_result_item_outputs _ _ _ Hitem). simpl.
    rewrite (IH _ Hitems). by rewrite extend_extend.
Qed.

Lemma render_tool_result_list (content : ParsedContent) (tree : Tree) (th : ColorScheme)
    (items : list value) :
  dict_get (data content) "content" = Some (VList items) →
  forallb item_as_expected items = true →
  ∃ head,
    render_tool_result content tree th
    = Some (add tree (extend head (concat (item_outputs th <$> items))))
    ∧ List.length (tree_children head)
      = if py_truthy (dict_get_default (data content) "tool_use_id" (VStr "")) then 1 else 0.
Proof.
  intros Hcontent Hitems. unfold render_tool_result. cbv zeta.
  match goal with
  | |- context [mbind _ (if _ then _ else Some ?node)] => set (head := node)
  end.
  exists head. split.
  - replace (dict_get_default (data content) "content" (VStr "")) with (VList items)
      by (unfold dict_get_default; by rewrite Hcontent).
    destruct items as [|item items]; simpl py_truthy; cbv iota.
    + simpl. by rewrite extend_nil.
    + by rewrite (for_each_item_outputs _ _ _ Hitems).
  - subst head. by destruct (py_truthy _).
Qed.

Lemma render_code_execution_streams content tree th nested out err :
  dict_get (data content) "content" = Some (VDict nested) →
  dict_get_default nested "stdout" (VStr "") = VStr out →
  dict_get_default nested "stderr" (VStr "") = VStr err →
  ∃ label, render_code_execution_result content tree th =
             Some (add tree (Node label (stream_nodes th out err))).
Proof.
  intros Hcontent Hout Herr.
  unfold render_code_execution_result. unfold dict_get_default at 1.
  rewrite Hcontent. simpl. rewrite Hout, Herr. unfold stream_nodes. simpl.
  destruct (String.eqb_spec out "") as [->|Hout_ne],
    (String.eqb_spec err "") as [->|Herr_ne]; simpl;
    rewrite ?truncate_to_str; simpl;
    unfold text_marker, nl; rewrite ?str_app_cons, ?str_app_nil;
    rewrite ?(truncation_policy_nonempty _ _ _ Hout_ne),
      ?(truncation_policy_nonempty _ _ _ Herr_ne); simpl;
    by eexists.
Qed.

(** C9, as the code has it. Every truncation of the renderers goes by the
    same rule: a text of at most [limit] characters is shown unchanged, a
    longer one as its first [limit] characters followed by a marker, which
    comes on top of the limit. The limit is 500 for JSON, 1000 for a text
    block, for the output of a tool result (the [str] of a content that is
    not a list, and the text of each text item of a list) and for a code
    snippet, and 2000 for stdout and for stderr, each on its own. The marker
    is a newline and "... (truncated)", except for JSON, where it is a
    newline and "  ... (truncated)", two spaces in. One output is not
    truncated at all: an item of a list-valued tool result that is not a
    text item is shown as its [str], whole. *)
Theorem truncation_policy_of_the_renderers :
  (∀ (marker : string) (limit : nat) (text : string),
     ((String.length text ≤ limit)%nat → truncation_policy marker limit text = text)
     ∧ ((limit < String.length text)%nat →
        truncation_policy marker limit text = str_take limit text +:+ marker
        ∧ String.length (str_take limit text) = limit
        ∧ String.length (truncation_policy marker limit text)
          = limit + String.length marker))
  ∧ text_marker = nl +:+ "... (truncated)"
  ∧ json_marker = nl +:+ "  ... (truncated)"
  ∧ (∀ data (max_length : nat),
       format_json data (Z.of_nat max_length)
       = truncation_policy json_marker max_length (json_dumps data))
  ∧ (∀ th data,
       json_syntax th data
       = Syntax (VStr (truncation_policy json_marker 500 (json_dumps data))) "json"
           (theme.json_theme th) false)
  ∧ (∀ content tree th s,
       dict_get (data content) "text" = Some (VStr s) → s ≠ "" →
       render_text_content content tree th =
         Some (add tree (text_node th (truncation_policy text_marker 1000 s))))
  ∧ (∀ content tree th v,
       dict_get (data content) "content" = Some v → py_truthy v = true →
       (∀ items, v ≠ VList items) →
       ∃ head, render_tool_result content tree th =
                 Some (add tree
                         (add head
                            (output_node th
                               (truncation_policy text_marker 1000 (py_str v))))))
  ∧ (∀ content tree th items,
       dict_get (data content) "content" = Some (VList items) →
       forallb item_as_expected items = true →
       ∃ head, render_tool_result content tree th =
                 Some (add tree (extend head (concat (item_outputs th <$> items)))))
  ∧ (∀ content tree th input code,
       dict_get (data content) "input" = Some (VDict input) →
       dict_or_absent (dict_get (data content) "caller") = true →
       dict_get input "code" = Some (VStr code) → code ≠ "" →
       ∃ head, render_server_tool_use content tree th =
                 Some (add tree
                         (add head (code_node th (truncation_policy text_marker 1000 code)))))
  ∧ (∀ content tree th nested out err,
       dict_get (data content) "content" = Some (VDict nested) →
       dict_get_default nested "stdout" (VStr "") = VStr out →
       dict_get_default nested "stderr" (VStr "") = VStr err →
       ∃ label, render_code_execution_result content tree th =
                  Some (add tree (Node label (stream_nodes th out err)))).
Proof.
  repeat apply conj.
  - intros marker limit text. split.
    + intros Hshort. by apply truncation_policy_short.
    + intros Hlong. rewrite truncation_policy_long by done.
      assert (Htake : String.length (str_take limit text) = limit).
      { rewrite str_take_length. lia. }
      by rewrite str_length_app, Htake.
  - reflexivity.
  - reflexivity.
  - apply format_json_policy.
  - intros th data. unfold json_syntax, max_length_default. by rewrite format_json_default.
  - apply render_text_content_str.
  - apply render_tool_result_plain.
  - intros content tree th items Hcontent Hitems.
    destruct (render_tool_result_list content tree th items Hcontent Hitems)
      as (head & Hrender & _).
    by exists head.
  - intros content tree th input code Hinput Hcaller Hcode Hne.
    assert (Hinput_ne : input ≠ []) by (by intros ->).
    destruct (render_server_tool_use_input content tree th input Hinput Hinput_ne Hcaller)
      as (head & _ & Hrender); [by rewrite Hcode|].
    exists head. rewrite Hrender. unfold server_input_node.
    by rewrite Hcode, (str_eqb_empty_false _ Hne).
  - apply render_code_execution_streams.
Qed.

Lemma truncation_policy_of_the_renderers_witness :
  truncation_policy text_marker 2000 (str_repeat "x" 2001)
  = str_repeat "x" 2000 +:+ nl +:+ "... (truncated)"
  ∧ render_text_content (text_block "hi") (leaf (Markup "Block 1")) DARK_THEME =
      Some (add (leaf (Markup "Block 1")) (text_node DARK_THEME "hi"))
  ∧ (∃ head,
       render_tool_result mixed_result (leaf (Markup "Block 1")) DARK_THEME =
         Some (add (leaf (Markup "Block 1"))
                 (extend head
                    [output_node DARK_THEME "ok";
                     Node (Markup "[bright_cyan]Output:[/bright_cyan]")
                       [leaf (Markup "plain")];
                     Node (Markup "[bright_cyan]Output:[/bright_cyan]") [leaf (Markup "7")]])))
  ∧ (∃ label,
       render_code_execution_result noisy_run (leaf (Markup "Block 1")) DARK_THEME =
         Some (add (leaf (Markup "Block 1"))
                 (Node label
                    [stdout_node DARK_THEME
                       (str_repeat "x" 2000 +:+ nl +:+ "... (truncated)");
                     stderr_node DARK_THEME "warning"])))
  ∧ (∃ label,
       render_code_execution_result lone_stderr_run (leaf (Markup "Block 1")) DARK_THEME =
         Some (add (leaf (Markup "Block 1"))
                 (Node label
                    [stderr_node DARK_THEME
                       (str_repeat "e" 2000 +:+ nl +:+ "... (truncated)")]))).
Proof.
  pose proof truncation_policy_of_the_renderers
    as (Hpolicy & _ & _ & _ & _ & Htext & _ & Hitems & _ & Hstreams).
  assert (Hlong : (2000 < String.length (str_repeat "x" 2001))%nat).
  { apply Nat.ltb_lt. vm_compute. reflexivity. }
  assert (Hhi : "hi" ≠ "") by discriminate.
  split; [|split; [|split; [|split]]].
  - exact (proj1 (proj2 (Hpolicy text_marker 2000 (str_repeat "x" 2001)) Hlong)).
  - exact (Htext (text_block "hi") (leaf (Markup "Block 1")) DARK_THEME "hi" eq_refl Hhi).
  - destruct (Hitems mixed_result (leaf (Markup "Block 1")) DARK_THEME _ eq_refl eq_refl)
      as (head & Hrender).
    exists head. exact Hrender.
  - destruct (Hstreams noisy_run (leaf (Markup "Block 1")) DARK_THEME _
                (str_repeat "x" 2001) "warning" eq_refl eq_refl eq_refl)
      as (label & Hrender).
    exists label. rewrite Hrender. vm_compute. reflexivity.
  - destruct (Hstreams lone_stderr_run (leaf (Markup "Block 1")) DARK_THEME _
                "" (str_repeat "e" 2001) eq_refl eq_refl eq_refl)
      as (label & Hrender).
    exists label. rewrite Hrender. vm_compute. reflexivity.
Defined.

(** No single marker serves both the JSON formatter and the text renderer:
    on a long input the first ends in its own, indented marker. *)
Lemma json_and_text_markers_differ :
  ¬ ∃ marker : string,
      (∀ data, format_json data 500 = truncation_policy marker 500 (json_dumps data))
      ∧ (∀ s, s ≠ "" →
           render_text_content (text_block s) (leaf (Markup "Block 1")) DARK_THEME =
             Some (add (leaf (Markup "Block 1"))
                     (text_node DARK_THEME (truncation_policy marker 1000 s)))).
Proof.
  intros (marker & Hjson & Htext).
  assert (Hlong_text : (1000 < String.length (str_repeat "a" 1001))%nat).
  { apply Nat.ltb_lt. vm_compute. reflexivity. }
  assert (Hlong_json :
            (500 < String.length (json_dumps (VStr (str_repeat "a" 600))))%nat).
  { apply Nat.ltb_lt. vm_compute. reflexivity. }
  assert (Hne : str_repeat "a" 1001 ≠ "") by discriminate.
  specialize (Htext (str_repeat "a" 1001) Hne).
  rewrite (render_text_content_str (text_block (str_repeat "a" 1001)) _ _
             (str_repeat "a" 1001) eq_refl Hne) in Htext.
  injection Htext as Htext. change (text_marker = marker) in Htext.
  specialize (Hjson (VStr (str_repeat "a" 600))).
  rewrite format_json_default, !truncation_policy_long in Hjson by done.
  apply str_app_inv_head in Hjson.
  rewrite <- Htext in Hjson. discriminate Hjson.
Qed.

(** ** The message assembler *)

Lemma message_tree_head (message : ParsedMessage) (th : ColorScheme) :
  message_tree message th =
    let tree := Node (title_label th message) (metadata_lines th message) in
    match content message with
    | [] => Some tree
    | _ =>
        content_tree ←
          for_each (render_block th) (leaf (content_header th (List.length (content message))))
            (enumerate (content message) 1);
        Some (add tree content_tree)
    end.
Proof.
  unfold message_tree, metadata_lines, title_label, content_header.
  destruct (opt_truthy (model message)), (opt_truthy (stop_reason message)); reflexivity.
Qed.

Lemma for_each_render_block (th : ColorScheme) (cs : list ParsedContent) :
  ∀ (start : nat) (label : renderable) (kids0 : list Tree) (tree : Tree),
    for_each (render_block th) (Node label kids0) (enumerate cs start) = Some tree →
    ∃ blocks, tree = Node label (kids0 ++ blocks)
      ∧ List.length blocks = List.length cs
      ∧ ∀ i b, blocks !! i = Some b → ∃ kids, b = Node (block_label th (start + i)) kids.
Proof.
  induction cs as [|c cs IH]; intros start label kids0 tree H; simpl in H.
  - injection H as <-. exists []. rewrite app_nil_r. split; [done|]. split; [done|].
    intros i b Hi. by rewrite lookup_nil in Hi.
  - apply bind_Some in H as (node & Hnode & H).
    unfold render_block in Hnode. apply bind_Some in Hnode as (b & Hb & Hnode).
    injection Hnode as <-. simpl in H.
    apply render_content_block_adds, adds_at_most_one_leaf in Hb as (kids & ->).
    apply IH in H as (blocks & -> & Hlen & Hblocks).
    exists (Node (block_label th start) kids :: blocks). split; [|split].
    + by rewrite <- app_assoc.
    + simpl. by rewrite Hlen.
    + intros [|i] b Hi; simpl in Hi.
      * injection Hi as <-. rewrite Nat.add_0_r. eauto.
      * apply Hblocks in Hi as (kids' & ->). replace (start + S i) with (S start + i) by lia.
        eauto.
Qed.

(** C10. A message with no content block gets a tree of the title and the
    model and stop-reason lines only: no "Content (0 blocks)" header and no
    "Block N" wrapper; this tree is the one handed to [console.print], and
    when that call returns its panel is the first thing on the console. A
    message with content blocks gets, after those lines, one content node
    whose header counts the blocks and whose children are the wrappers
    "Block 1", "Block 2", ... in order, one for each block; its tree is
    built whenever the fields of its blocks are as expected. *)
Theorem empty_content_has_no_content_section (returns : printed → bool)
    (message : ParsedMessage) (th : ColorScheme) :
  (content message = [] →
   message_tree message th =
     Some (Node (title_label th message) (metadata_lines th message))
   ∧ ∃ usage_part,
       console (visualize_message returns message th) =
         if returns (PrintPanel
                       (main_panel (Node (title_label th message) (metadata_lines th message))
                          th))
         then PrintPanel
                (main_panel (Node (title_label th message) (metadata_lines th message)) th)
              :: usage_part
         else [])
  ∧ (∀ tree, message_tree message th = Some tree → content message ≠ [] →
       ∃ blocks,
         tree = Node (title_label th message)
                  (metadata_lines th message
                   ++ [Node (content_header th (List.length (content message))) blocks])
         ∧ List.length blocks = List.length (content message)
         ∧ ∀ i b, blocks !! i = Some b → ∃ kids, b = Node (block_label th (S i)) kids)
  ∧ (Forall (λ c, fields_as_expected c = true) (content message) →
     is_Some (message_tree message th)).
Proof.
  split; [|split; [|apply message_tree_total]].
  - intros Hnil.
    assert (Htree : message_tree message th =
                    Some (Node (title_label th message) (metadata_lines th message))).
    { rewrite message_tree_head. by rewrite Hnil. }
    split; [done|]. rewrite visualize_message_cases, Htree. cbv zeta.
    destruct (returns (PrintPanel _)); simpl; [|by exists []].
    destruct (decide (usage message = ∅)); simpl; [by eexists|].
    destruct (returns PrintBlank); simpl; [|by eexists].
    destruct (returns (PrintPanel _)); by eexists.
  - intros tree H Hne. rewrite message_tree_head in H. simpl in H.
    destruct (content message) as [|c cs] eqn:Hcs; [done|].
    apply bind_Some in H as (content_tree & Hfor & H). injection H as <-.
    apply for_each_render_block in Hfor as (blocks & -> & Hlen & Hblocks).
    exists blocks. repeat split; done.
Qed.

Lemma empty_content_has_no_content_section_witness :
  message_tree negative_usage DARK_THEME =
    Some (leaf (Markup ("[bold bright_blue]Claude Message[/bold bright_blue] "
                        +:+ "([italic bright_cyan]assistant[/italic bright_cyan])")))
  ∧ ∃ blocks,
      message_tree scenario7 DARK_THEME =
        Some (Node (Markup ("[bold bright_blue]Claude Message[/bold bright_blue] "
                            +:+ "([italic bright_cyan]assistant[/italic bright_cyan])"))
                [leaf (Markup "[bright_black]Model:[/bright_black] m1");
                 Node (Markup "[bold white]Content[/bold white] (1 blocks)") blocks])
      ∧ List.length blocks = 1.
Proof.
  split.
  - exact (proj1 (proj1 (empty_content_has_no_content_section always_prints negative_usage
                           DARK_THEME)
                    eq_refl)).
  - destruct (empty_content_has_no_content_section always_prints scenario7 DARK_THEME)
      as (_ & Hblocks & Hbuilt).
    assert (Hexpected : Forall (λ c, fields_as_expected c = true) (content scenario7)).
    { repeat constructor. }
    destruct (Hbuilt Hexpected) as [tree Htree].
    assert (Hne : content scenario7 ≠ []) by discriminate.
    destruct (Hblocks tree Htree Hne) as (blocks & -> & Hlen & _).
    exists blocks. split; [exact Htree|exact Hlen].
Defined.

(** ** The usage panel *)




(** * Further properties of the code *)

(** ** A renderer only appends *)

Lemma render_text_content_frame content tree th :
  render_text_content content tree th =
    extend tree <$> (tree_children <$> render_text_content content (leaf (Markup "")) th).
Proof.
  unfold render_text_content. destruct tree as [label kids].
  destruct (py_truthy _); [|by unfold extend; simpl; rewrite app_nil_r].
  destruct (truncate_to _ _ _) as [text|]; [simpl|done].
  destruct (new_Text _ _); done.
Qed.

Lemma render_tool_use_frame content tree th :
  render_tool_use content tree th =
    extend tree <$> (tree_children <$> render_tool_use content (leaf (Markup "")) th).
Proof.
  unfold render_tool_use. destruct tree as [label kids]. cbv zeta.
  match goal with |- context [mbind _ ?m] => destruct m; done end.
Qed.

Lemma render_server_tool_use_frame content tree th :
  render_server_tool_use content tree th =
    extend tree <$> (tree_children <$> render_server_tool_use content (leaf (Markup "")) th).
Proof.
  unfold render_server_tool_use. destruct tree as [label kids]. cbv zeta.
  set (caller_part := if py_truthy (dict_get_default (data content) "caller" (VDict []))
                      then _ else _).
  destruct caller_part as [node|]; [simpl|done].
  destruct (if py_truthy (dict_get_default (data content) "input" (VDict []))
            then _ else _); done.
Qed.

Lemma render_tool_result_frame content tree th :
  render_tool_result content tree th =
    extend tree <$> (tree_children <$> render_tool_result content (leaf (Markup "")) th).
Proof.
  unfold render_tool_result. destruct tree as [label kids]. cbv zeta.
  destruct (if py_truthy (dict_get_default (data content) "content" (VStr ""))
            then _ else _); done.
Qed.

Lemma render_code_execution_result_frame content tree th :
  render_code_execution_result content tree th =
    extend tree
      <$> (tree_children <$> render_code_execution_result content (leaf (Markup "")) th).
Proof.
  unfold render_code_execution_result. destruct tree as [label kids].
  destruct (dict_get_default (data content) "content" (VDict [])); try done.
  cbv zeta.
  set (stdout_part := if py_truthy (dict_get_default d "stdout" (VStr "")) then _ else _).
  destruct stdout_part as [[node1 stdout]|]; [simpl|done].
  destruct (if py_truthy (dict_get_default d "stderr" (VStr "")) then _ else _)
    as [[node2 stderr]|]; done.
Qed.

Lemma render_content_block_frame content tree th :
  render_content_block content tree th =
    extend tree <$> (tree_children <$> render_content_block content (leaf (Markup "")) th).
Proof.
  unfold render_content_block.
  repeat match goal with
         | |- context [if ?b then _ else _] => destruct b
         end;
    auto using render_text_content_frame, render_tool_use_frame, render_tool_result_frame,
      render_server_tool_use_frame, render_code_execution_result_frame.
  by destruct tree.
Qed.

(** X1. What [render_content_block] does to a tree does not depend on the
    tree: whether it raises is decided by the block and the theme alone,
    and when it returns it has put at most one node, the same for every
    tree, after the children the tree had, which it leaves as they were
    together with the label. *)
Theorem renderers_append_independently (content : ParsedContent) (th : ColorScheme) :
  ∃ outcome : option (list Tree),
    (default 0 (List.length <$> outcome) ≤ 1)%nat
    ∧ ∀ tree, render_content_block content tree th = extend tree <$> outcome.
Proof.
  exists (tree_children <$> render_content_block content (leaf (Markup "")) th). split.
  - destruct (render_content_block content (leaf (Markup "")) th) as [tree'|] eqn:Hrender;
      simpl; [|lia].
    apply render_content_block_adds in Hrender as [->|[node ->]]; simpl; lia.
  - intros tree. apply render_content_block_frame.
Qed.

(** ** The blocks of a message, one by one *)

Lemma rendered_block_frame (th : ColorScheme) (i : nat) (c : ParsedContent) (tree : Tree) :
  is_Some (render_content_block c tree th) ↔ is_Some (rendered_block th i c).
Proof.
  unfold rendered_block.
  rewrite (render_content_block_frame c tree).
  rewrite (render_content_block_frame c (leaf (block_label th i))).
  by rewrite !fmap_is_Some.
Qed.

Lemma enumerate_lookup {A : Type} (l : list A) (start i : nat) :
  enumerate l start !! i = (λ x, (start + i, x)) <$> l !! i.
Proof.
  revert start i. induction l as [|x l IH]; intros start [|i]; simpl; try done.
  - by rewrite Nat.add_0_r.
  - rewrite IH. by replace (S start + i) with (start + S i) by lia.
Qed.

Lemma render_block_rendered (th : ColorScheme) (node : Tree) (i : nat) (c : ParsedContent) :
  render_block th node (i, c) = (b ← rendered_block th i c; Some (add node b)).
Proof. reflexivity. Qed.

Lemma for_each_render_block_mapM (th : ColorScheme) (cs : list ParsedContent) :
  ∀ start label kids0,
    for_each (render_block th) (Node label kids0) (enumerate cs start) =
      (blocks ← mapM (λ ic, rendered_block th (fst ic) (snd ic)) (enumerate cs start);
       Some (Node label (kids0 ++ blocks))).
Proof.
  induction cs as [|c cs IH]; intros start label kids0.
  - simpl. by rewrite app_nil_r.
  - change (enumerate (c :: cs) start) with ((start, c) :: enumerate cs (S start)).
    change (for_each (render_block th) (Node label kids0) ((start, c) :: enumerate cs (S start)))
      with (s' ← render_block th (Node label kids0) (start, c);
            for_each (render_block th) s' (enumerate cs (S start))).
    rewrite render_block_rendered. cbn [mapM fst snd].
    destruct (rendered_block th start c) as [b|]; [|done]. cbn [mbind option_bind add].
    rewrite IH.
    destruct (mapM _ (enumerate cs (S start))) as [bs|]; [|done].
    cbn. by rewrite <- app_assoc.
Qed.

Lemma mapM_lookup_rendered (th : ColorScheme) (cs : list ParsedContent) (start : nat)
    (blocks : list Tree) :
  mapM (λ ic, rendered_block th (fst ic) (snd ic)) (enumerate cs start) = Some blocks →
  ∀ i, blocks !! i = cs !! i ≫= rendered_block th (start + i).
Proof.
  intros H i. apply mapM_Some in H.
  destruct (cs !! i) as [c|] eqn:Hc; simpl.
  - assert (Hi : enumerate cs start !! i = Some (start + i, c)).
    { by rewrite enumerate_lookup, Hc. }
    destruct (Forall2_lookup_l _ _ _ _ _ H Hi) as (b & Hb & Hrender).
    simpl in Hrender. by rewrite Hb, Hrender.
  - apply lookup_ge_None. apply Forall2_length in H. rewrite <- H.
    apply lookup_ge_None. by rewrite enumerate_lookup, Hc.
Qed.

Lemma mapM_rendered_is_Some (th : ColorScheme) (cs : list ParsedContent) (start : nat) :
  is_Some (mapM (λ ic, rendered_block th (fst ic) (snd ic)) (enumerate cs start))
  ↔ ∀ i c, cs !! i = Some c → is_Some (rendered_block th (start + i) c).
Proof.
  rewrite mapM_is_Some, Forall_lookup. split.
  - intros H i c Hc. apply (H i (start + i, c)). by rewrite enumerate_lookup, Hc.
  - intros H i [j c] Hic. rewrite enumerate_lookup in Hic.
    destruct (cs !! i) as [c'|] eqn:Hc; simplify_eq/=. by apply H.
Qed.

(** X2. The tree of a message is built exactly when each of its blocks is
    rendered on its own, and then the content node holds the blocks in the
    order of the message: its child number [i], from 0, is block [i] of the
    message rendered inside the wrapper "Block i+1". No block changes what
    another one shows. *)
Theorem message_blocks_in_order (message : ParsedMessage) (th : ColorScheme) :
  (is_Some (message_tree message th)
   ↔ ∀ i c, content message !! i = Some c → is_Some (rendered_block th (S i) c))
  ∧ (∀ tree, message_tree message th = Some tree → content message ≠ [] →
       ∃ blocks,
         tree = Node (title_label th message)
                  (metadata_lines th message
                   ++ [Node (content_header th (List.length (content message))) blocks])
         ∧ ∀ i, blocks !! i = content message !! i ≫= rendered_block th (S i)).
Proof.
  rewrite message_tree_head. cbv zeta.
  destruct (content message) as [|c cs] eqn:Hcs.
  - split; [|done]. split; [done|]. intros _. by eexists.
  - rewrite <- Hcs. unfold leaf. rewrite for_each_render_block_mapM. split.
    + rewrite <- (mapM_rendered_is_Some th (content message) 1).
      destruct (mapM _ _); simpl; split; intros [? ?]; by eauto.
    + intros tree H _. apply bind_Some in H as (content_tree & Hblocks & H).
      apply bind_Some in Hblocks as (blocks & Hblocks & Hcontent).
      injection Hcontent as <-. injection H as <-. exists blocks. split; [done|].
      intros i. apply (mapM_lookup_rendered _ _ _ _ Hblocks).
Qed.

Lemma message_blocks_in_order_witness :
  ∃ tree blocks,
    message_tree scenario7 DARK_THEME = Some tree
    ∧ tree = Node (title_label DARK_THEME scenario7)
               (metadata_lines DARK_THEME scenario7
                ++ [Node (content_header DARK_THEME 1) blocks])
    ∧ blocks !! 0 = rendered_block DARK_THEME 1 (text_block "hi")
    ∧ blocks !! 1 = None.
Proof.
  destruct (message_blocks_in_order scenario7 DARK_THEME) as [_ Hshape].
  assert (Hne : content scenario7 ≠ []) by discriminate.
  destruct (Hshape _ eq_refl Hne) as (blocks & Htree & Hblocks).
  eexists _, blocks. split; [reflexivity|]. split; [exact Htree|].
  split; [exact (Hblocks 0)|exact (Hblocks 1)].
Defined.

(** ** What truncation keeps *)

Lemma str_take_app_le (n : nat) (a b : string) :
  (n ≤ String.length a)%nat → str_take n (a +:+ b) = str_take n a.
Proof.
  revert a. induction n as [|n IH]; intros a H; [done|].
  destruct a as [|c a]; simpl in H; [lia|].
  rewrite str_app_cons. simpl. f_equal. apply IH. lia.
Qed.

Lemma str_take_take (n : nat) (s : string) : str_take n (str_take n s) = str_take n s.
Proof. revert s. induction n as [|n IH]; intros [|c s]; simpl; by rewrite ?IH. Qed.

Lemma truncation_policy_idempotent (marker : string) (limit : nat) (s : string) :
  truncation_policy marker limit (truncation_policy marker limit s)
  = truncation_policy marker limit s.
Proof.
  destruct (Nat.le_gt_cases (String.length s) limit) as [Hshort|Hlong].
  - by rewrite !(truncation_policy_short _ _ s Hshort).
  - rewrite (truncation_policy_long _ _ s) by done.
    assert (Htake : String.length (str_take limit s) = limit).
    { rewrite str_take_length. lia. }
    unfold truncation_policy.
    destruct (Nat.leb_spec (String.length (str_take limit s +:+ marker)) limit); [done|].
    rewrite str_take_app_le by lia. by rewrite str_take_take.
Qed.

Lemma truncation_policy_length (marker : string) (limit : nat) (s : string) :
  (String.length (truncation_policy marker limit s) ≤ limit + String.length marker)%nat.
Proof.
  unfold truncation_policy. destruct (Nat.leb_spec (String.length s) limit); [lia|].
  rewrite str_length_app, str_take_length. lia.
Qed.

Lemma truncation_policy_prefix (marker : string) (limit : nat) (s : string) :
  str_take limit (truncation_policy marker limit s) = str_take limit s.
Proof.
  unfold truncation_policy. destruct (Nat.leb_spec (String.length s) limit); [done|].
  rewrite str_take_app_le; [apply str_take_take|]. rewrite str_take_length. lia.
Qed.

(** X3. For a [max_length] that is not negative, [format_json] returns at
    most [max_length] characters and the 18 of its marker, so what it returns
    can be longer than [max_length]; its first [max_length] characters are
    those of the serialization. For a negative [max_length] the slice counts
    from the end: the result is the serialization without its last
    [-max_length] characters (nothing of it when it is no longer than that),
    always followed by the marker, and no bound in [max_length] holds. *)
Theorem format_json_bounded (data : value) (max_length : Z) :
  ((0 ≤ max_length)%Z →
   (String.length (format_json data max_length) ≤ Z.to_nat max_length + 18)%nat
   ∧ str_take (Z.to_nat max_length) (format_json data max_length)
     = str_take (Z.to_nat max_length) (json_dumps data))
  ∧ ((max_length < 0)%Z →
     format_json data max_length
     = str_take (String.length (json_dumps data) - Z.to_nat (- max_length)) (json_dumps data)
       +:+ json_marker).
Proof.
  split.
  - intros Hpos.
    assert (Hpolicy : format_json data max_length
                      = truncation_policy json_marker (Z.to_nat max_length) (json_dumps data)).
    { rewrite <- format_json_policy. by rewrite Z2Nat.id. }
    rewrite Hpolicy. split.
    + apply (truncation_policy_length json_marker).
    + apply truncation_policy_prefix.
  - intros Hneg. unfold format_json, str_slice_to. cbv zeta.
    destruct (Z.ltb_spec max_length (Z.of_nat (String.length (json_dumps data)))); [|lia].
    destruct (Z.ltb_spec max_length 0); [|lia].
    do 2 f_equal. lia.
Qed.

Lemma format_json_bounded_witness :
  (String.length (format_json (VStr (str_repeat "a" 600)) 500) ≤ 518)%nat
  ∧ String.length (json_dumps (VStr "abcdef")) = 8
  ∧ String.length (format_json (VStr "abcdef") (-3)) = 23.
Proof.
  split; [|split].
  - exact (proj1 (proj1 (format_json_bounded (VStr (str_repeat "a" 600)) 500)
                    ltac:(discriminate))).
  - reflexivity.
  - rewrite (proj2 (format_json_bounded (VStr "abcdef") (-3)) eq_refl). reflexivity.
Defined.

(** X4. The text that a text block with a non-empty string shows is at most
    1016 characters long, and its first 1000 characters are those of the
    field. *)
Theorem text_shown_is_bounded (content : ParsedContent) (tree : Tree) (th : ColorScheme)
    (s : string) :
  dict_get (data content) "text" = Some (VStr s) → s ≠ "" →
  ∃ shown,
    render_text_content content tree th = Some (add tree (text_node th shown))
    ∧ (String.length shown ≤ 1016)%nat
    ∧ str_take 1000 shown = str_take 1000 s.
Proof.
  intros Hget Hs. exists (truncation_policy text_marker 1000 s). split; [|split].
  - by apply render_text_content_str.
  - apply (truncation_policy_length text_marker).
  - apply truncation_policy_prefix.
Qed.

Lemma text_shown_is_bounded_witness :
  ∃ shown,
    render_text_content (text_block (str_repeat "x" 1001)) (leaf (Markup "Block 1")) DARK_THEME
    = Some (add (leaf (Markup "Block 1")) (text_node DARK_THEME shown))
    ∧ (String.length shown ≤ 1016)%nat
    ∧ str_take 1000 shown = str_take 1000 (str_repeat "x" 1001).
Proof.
  apply (text_shown_is_bounded (text_block (str_repeat "x" 1001))); [reflexivity|].
  intros H. apply (f_equal String.length) in H. vm_compute in H. discriminate.
Defined.

(** X5. Showing a text twice shows it once: when a text block shows [shown]
    for its text, a text block whose text is [shown] shows [shown] again,
    with one marker and not two, although [shown] can be longer than the
    limit. *)
Theorem text_truncation_is_idempotent (content content' : ParsedContent) (tree : Tree)
    (th : ColorScheme) (s shown : string) :
  dict_get (data content) "text" = Some (VStr s) → s ≠ "" →
  render_text_content content tree th = Some (add tree (text_node th shown)) →
  dict_get (data content') "text" = Some (VStr shown) →
  render_text_content content' tree th = Some (add tree (text_node th shown)).
Proof.
  intros Hget Hs Hrender Hget'.
  rewrite (render_text_content_str _ _ _ _ Hget Hs) in Hrender.
  destruct tree as [label kids]. injection Hrender as Hshown.
  apply app_inv_head in Hshown. injection Hshown as Hshown.
  assert (Hne : shown ≠ "").
  { rewrite <- Hshown. intros Hempty.
    pose proof (truncation_policy_nonempty "... (truncated)" 1000 s Hs) as Hnon.
    apply String.eqb_neq in Hnon. apply Hnon. exact Hempty. }
  rewrite (render_text_content_str _ _ _ _ Hget' Hne).
  by rewrite <- Hshown, truncation_policy_idempotent.
Qed.

Lemma text_truncation_is_idempotent_witness :
  let shown := str_repeat "x" 1000 +:+ text_marker in
  render_text_content (text_block shown) (leaf (Markup "Block 1")) DARK_THEME
  = Some (add (leaf (Markup "Block 1")) (text_node DARK_THEME shown)).
Proof.
  intros shown.
  apply (text_truncation_is_idempotent (text_block (str_repeat "x" 1001)) (text_block shown)
           (leaf (Markup "Block 1")) DARK_THEME (str_repeat "x" 1001) shown).
  - reflexivity.
  - intros H. apply (f_equal String.length) in H. vm_compute in H. discriminate.
  - vm_compute. reflexivity.
  - reflexivity.
Defined.

(** ** The items of a tool result *)

(** X6. A tool result whose content is a list shows its items in the order
    of the list, after the ID line when there is one: a text item gives one
    output node with its text, truncated, and none when the text is empty;
    any other item gives one output node with its [str], however long it
    is. An empty list gives none. *)
Theorem tool_result_items_in_order (content : ParsedContent) (tree : Tree)
    (th : ColorScheme) (items : list value) :
  dict_get (data content) "content" = Some (VList items) →
  forallb item_as_expected items = true →
  ∃ head,
    render_tool_result content tree th
    = Some (add tree (extend head (concat (item_outputs th <$> items))))
    ∧ List.length (tree_children head)
      = if py_truthy (dict_get_default (data content) "tool_use_id" (VStr "")) then 1 else 0.
Proof.
  intros Hcontent Hitems. unfold render_tool_result. cbv zeta.
  match goal with
  | |- context [mbind _ (if _ then _ else Some ?node)] => set (head := node)
  end.
  exists head. split.
  - replace (dict_get_default (data content) "content" (VStr "")) with (VList items)
      by (unfold dict_get_default; by rewrite Hcontent).
    destruct items as [|item items]; simpl py_truthy; cbv iota.
    + simpl. by rewrite extend_nil.
    + by rewrite (for_each_item_outputs _ _ _ Hitems).
  - subst head. by destruct (py_truthy _).
Qed.

Lemma tool_result_items_in_order_witness :
  ∃ head,
    render_tool_result mixed_result (leaf (Markup "Block 1")) DARK_THEME
    = Some (add (leaf (Markup "Block 1"))
              (extend head
                 [output_node DARK_THEME "ok";
                  Node (Markup "[bright_cyan]Output:[/bright_cyan]") [leaf (Markup "plain")];
                  Node (Markup "[bright_cyan]Output:[/bright_cyan]") [leaf (Markup "7")]]))
    ∧ List.length (tree_children head) = 0.
Proof.
  destruct (tool_result_items_in_order mixed_result (leaf (Markup "Block 1")) DARK_THEME _
              eq_refl eq_refl) as (head & Hrender & Hhead).
  exists head. split; [exact Hrender|exact Hhead].
Defined.

(** ** The node of a code execution result *)

Lemma text_marker_nonempty : text_marker ≠ "".
Proof. discriminate. Qed.

Lemma truncate_to_truthy limit marker v v' :
  marker ≠ "" →
  truncate_to limit marker v = Some v' →
  py_truthy v = true → py_truthy v' = true.
Proof.
  unfold truncate_to. intros Hmarker H Htruthy.
  apply bind_Some in H as (n & Hn & H).
  destruct (limit <? n)%nat; [|by simplify_eq].
  apply bind_Some in H as (y & Hy & H).
  destruct y; simplify_eq/=. apply negb_true_iff, String.eqb_neq.
  intros Hempty. apply (f_equal String.length) in Hempty.
  rewrite str_length_app in Hempty. destruct marker; [done|]. simpl in Hempty. lia.
Qed.

(** X7. A code execution result that is rendered is never an empty node: it
    has one or two children. When the nested content is a dict these are one
    for a truthy stdout, one for a truthy stderr, and the line "(no output)"
    exactly when neither is truthy. *)
Theorem code_execution_node_is_never_empty (content : ParsedContent) (tree tree' : Tree)
    (th : ColorScheme) :
  render_code_execution_result content tree th = Some tree' →
  ∃ node,
    tree' = add tree node
    ∧ (1 ≤ List.length (tree_children node) ≤ 2)%nat
    ∧ ∀ nested,
        dict_get_default (data content) "content" (VDict []) = VDict nested →
        let stdout := dict_get_default nested "stdout" (VStr "") in
        let stderr := dict_get_default nested "stderr" (VStr "") in
        List.length (tree_children node)
        = (if py_truthy stdout then 1 else 0) + (if py_truthy stderr then 1 else 0)
          + (if negb (py_truthy stdout) && negb (py_truthy stderr) then 1 else 0)
        ∧ (leaf (Markup (tag (theme.metadata_key th) "(no output)")) ∈ tree_children node
           ↔ py_truthy stdout = false ∧ py_truthy stderr = false).
Proof.
  unfold render_code_execution_result. intros H.
  destruct (dict_get_default (data content) "content" (VDict [])) as [| | | | | |nested] eqn:Hc;
    try (injection H as <-; eexists; split; [reflexivity|]; split; [simpl; lia|done]).
  cbv zeta in H.
  set (stdout := dict_get_default nested "stdout" (VStr "")) in *.
  set (stderr := dict_get_default nested "stderr" (VStr "")) in *.
  apply bind_Some in H as ([node1 stdout'] & H1 & H).
  apply bind_Some in H as ([node2 stderr'] & H2 & H). injection H as <-.
  eexists. split; [reflexivity|].
  assert (Hout : py_truthy stdout' = py_truthy stdout
                 ∧ ∃ label kids1, node1 = Node label kids1
                     ∧ List.length kids1 = (if py_truthy stdout then 1 else 0)
                     ∧ ∀ k, k ∈ kids1 → List.length (tree_children k) = 1).
  { destruct (py_truthy stdout) eqn:Hs.
    - apply bind_Some in H1 as (out & Hout & H1).
      apply bind_Some in H1 as (text & _ & H1). injection H1 as <- <-.
      split; [by eapply (truncate_to_truthy _ _ _ _ text_marker_nonempty)|].
      do 2 eexists. split; [reflexivity|].
      split; [done|]. intros k Hk. by apply list_elem_of_singleton in Hk as ->.
    - injection H1 as <- <-. split; [done|]. eexists _, []. split; [done|]. split; [done|].
      intros k Hk. by apply elem_of_nil in Hk. }
  destruct Hout as (Hout & label & kids1 & -> & Hlen1 & Hkids1).
  assert (Herr : py_truthy stderr' = py_truthy stderr
                 ∧ ∃ kids2, node2 = Node label (kids1 ++ kids2)
                     ∧ List.length kids2 = (if py_truthy stderr then 1 else 0)
                     ∧ ∀ k, k ∈ kids2 → List.length (tree_children k) = 1).
  { destruct (py_truthy stderr) eqn:Hs.
    - apply bind_Some in H2 as (err & Herr & H2).
      apply bind_Some in H2 as (text & _ & H2). injection H2 as <- <-.
      split; [by eapply (truncate_to_truthy _ _ _ _ text_marker_nonempty)|].
      eexists. split; [reflexivity|].
      split; [done|]. intros k Hk. by apply list_elem_of_singleton in Hk as ->.
    - injection H2 as <- <-. split; [done|]. exists []. rewrite app_nil_r.
      split; [done|]. split; [done|]. intros k Hk. by apply elem_of_nil in Hk. }
  destruct Herr as (Herr & kids2 & -> & Hlen2 & Hkids2).
  rewrite Hout, Herr.
  assert (Hcount :
    List.length (tree_children
              (if negb (py_truthy stdout) && negb (py_truthy stderr)
               then add (Node label (kids1 ++ kids2))
                      (leaf (Markup (tag (theme.metadata_key th) "(no output)")))
               else Node label (kids1 ++ kids2)))
    = (if py_truthy stdout then 1 else 0) + (if py_truthy stderr then 1 else 0)
      + (if negb (py_truthy stdout) && negb (py_truthy stderr) then 1 else 0)).
  { destruct (negb (py_truthy stdout) && negb (py_truthy stderr)); simpl;
      rewrite ?length_app, Hlen1, Hlen2; simpl; lia. }
  split.
  - rewrite Hcount. destruct (py_truthy stdout), (py_truthy stderr); simpl; lia.
  - intros nested' [= <-]. split; [exact Hcount|]. cbv zeta. subst stdout stderr.
    destruct (py_truthy (dict_get_default nested "stdout" (VStr ""))) eqn:Hs,
      (py_truthy (dict_get_default nested "stderr" (VStr ""))) eqn:He; simpl.
    all: try (split; [|by intros [? ?]]; intros Hin;
              apply elem_of_app in Hin as [Hin|Hin];
              [apply Hkids1 in Hin|apply Hkids2 in Hin]; simpl in Hin; lia).
    split; [done|]. intros _. set_solver.
Qed.

Lemma code_execution_node_is_never_empty_witness :
  ∃ tree' node,
    render_code_execution_result noisy_run (leaf (Markup "Block 1")) DARK_THEME = Some tree'
    ∧ tree' = add (leaf (Markup "Block 1")) node
    ∧ List.length (tree_children node) = 2
    ∧ leaf (Markup "[bright_black](no output)[/bright_black]") ∉ tree_children node.
Proof.
  destruct (render_code_execution_result noisy_run (leaf (Markup "Block 1")) DARK_THEME)
    as [tree'|] eqn:Hrender; [|by vm_compute in Hrender].
  destruct (code_execution_node_is_never_empty _ _ _ _ Hrender) as (node & Htree & _ & Hnode).
  destruct (Hnode _ eq_refl) as [Hcount Hline].
  exists tree', node. split; [reflexivity|]. split; [exact Htree|]. split; [exact Hcount|].
  intros Hin. apply Hline in Hin as [Hout _]. vm_compute in Hout. discriminate.
Defined.

(** ** The fields a renderer reads *)

(** X8. A text, tool_use, tool_result or server_tool_use block is rendered
    from the fields of [fields_read] alone: two payloads that agree on them
    are rendered alike, whether that is a tree or an exception. So the
    [name] of a server_tool_use, which is not among them, is never shown. *)
Theorem renderers_read_only_their_fields (kind : string) (d d' : pydict) (tree : Tree)
    (th : ColorScheme) :
  kind ∈ ["text"; "tool_use"; "tool_result"; "server_tool_use"] →
  same_fields (fields_read kind) d d' →
  render_content_block {| type := kind; data := d |} tree th
  = render_content_block {| type := kind; data := d' |} tree th.
Proof.
  intros Hkind Hsame.
  assert (Hget : ∀ key, key ∈ fields_read kind → ∀ dflt,
                   dict_get_default d key dflt = dict_get_default d' key dflt).
  { intros key Hkey dflt. unfold dict_get_default. by rewrite (Hsame key Hkey). }
  apply elem_of_cons in Hkind as [->|Hkind];
    [|apply elem_of_cons in Hkind as [->|Hkind];
      [|apply elem_of_cons in Hkind as [->|Hkind];
        [|apply list_elem_of_singleton in Hkind as ->]]];
    unfold render_content_block; simpl.
  - unfold render_text_content; simpl. rewrite (Hget "text"); [done|set_solver].
  - unfold render_tool_use; simpl.
    rewrite (Hget "name"), (Hget "id"), (Hget "input"), (Hget "caller");
      [done|set_solver..].
  - unfold render_tool_result; simpl.
    rewrite (Hget "tool_use_id"), (Hget "is_error"), (Hget "content");
      [done|set_solver..].
  - unfold render_server_tool_use; simpl.
    rewrite (Hget "id"), (Hget "input"), (Hget "caller"); [done|set_solver..].
Qed.

Lemma renderers_read_only_their_fields_witness :
  render_content_block {| type := "server_tool_use"; data := named_server_block |}
    (leaf (Markup "Block 1")) DARK_THEME
  = render_content_block {| type := "server_tool_use"; data := unnamed_server_block |}
      (leaf (Markup "Block 1")) DARK_THEME.
Proof.
  apply renderers_read_only_their_fields.
  - apply (bool_decide_unpack _). vm_compute. exact I.
  - intros key Hkey.
    apply elem_of_cons in Hkey as [->|Hkey]; [reflexivity|].
    apply elem_of_cons in Hkey as [->|Hkey]; [reflexivity|].
    apply list_elem_of_singleton in Hkey as ->. reflexivity.
Defined.

(** ** The usage table *)

(** X9. The usage table is made from [input_tokens] and [output_tokens]
    alone: two mappings that agree on these two give the same table, so no
    other count of the mapping (cache reads, say) is shown or added to the
    total. The table always has two columns and three rows. *)
Theorem usage_table_reads_two_keys (usage usage' : gmap string Z) (th : ColorScheme) :
  usage !! "input_tokens" = usage' !! "input_tokens" →
  usage !! "output_tokens" = usage' !! "output_tokens" →
  create_usage_table usage th = create_usage_table usage' th
  ∧ List.length (columns (create_usage_table usage th)) = 2
  ∧ List.length (rows (create_usage_table usage th)) = 3.
Proof.
  intros Hin Hout. unfold create_usage_table. cbv zeta. by rewrite Hin, Hout.
Qed.

Lemma usage_table_reads_two_keys_witness :
  create_usage_table cached_usage DARK_THEME = create_usage_table plain_usage DARK_THEME
  ∧ List.length (columns (create_usage_table cached_usage DARK_THEME)) = 2
  ∧ List.length (rows (create_usage_table cached_usage DARK_THEME)) = 3.
Proof.
  apply usage_table_reads_two_keys; vm_compute; reflexivity.
Defined.

(** ** The parser *)

(** X10. On JSON values [parse_response] raises exactly in two cases: the
    response is not an object, or it is an object whose [content] is present
    and cannot be iterated (null, a number or a boolean). An object without
    [content] is parsed. *)
Theorem parse_response_raises_iff (response : value) :
  parse_response response = None
  ↔ is_dict response = false
    ∨ ∃ d c, response = VDict d ∧ dict_get d "content" = Some c ∧ iterable c = false.
Proof.
  split.
  - destruct response as [| | | | | |d]; try (by left). intros H. right.
    unfold parse_response, dict_get_default in H. cbv zeta in H.
    destruct (dict_get d "content") as [c|] eqn:Hc; [|done].
    exists d, c. split; [done|]. split; [done|]. by destruct c.
  - intros [H|(d & c & -> & Hc & Hiter)]; [by destruct response|].
    unfold parse_response, dict_get_default. cbv zeta. rewrite Hc. by destruct c.
Qed.

Lemma parse_response_content (d : pydict) (blocks : list value) :
  py_iter (dict_get_default d "content" (VList [])) = Some blocks →
  ∃ raw, parse_response (VDict d) = Some raw
    ∧ raw_content raw = map parse_content_block blocks
    ∧ raw_role raw = dict_get_default d "role" (VStr "unknown")
    ∧ raw_model raw = dict_get_default d "model" VNone
    ∧ raw_stop_reason raw = dict_get_default d "stop_reason" VNone
    ∧ raw_usage raw = or_empty_dict (dict_get_default d "usage" (VDict [])).
Proof.
  intros H. unfold parse_response. cbv zeta. rewrite H. simpl. by eexists.
Qed.

(** X11. A response object without [role] and [content], whose [model] and
    [stop_reason] are absent or null and whose [usage] is absent or falsy
    (null, empty), is parsed, and [visualize_message] makes one call of
    [console.print] for it, on the panel with the bare title and the role
    "unknown": no line, no content section and no usage panel. What is
    printed is that one panel, or nothing when the call raises. *)
Theorem bare_response_shows_the_title_only (returns : printed → bool) (d : pydict)
    (th : ColorScheme) :
  dict_get d "role" = None → dict_get d "content" = None →
  dict_get_default d "model" VNone = VNone →
  dict_get_default d "stop_reason" VNone = VNone →
  py_truthy (dict_get_default d "usage" (VDict [])) = false →
  ∃ raw message,
    parse_response (VDict d) = Some raw
    ∧ checked_message raw = Some message
    ∧ let panel :=
        PrintPanel
          (main_panel
             (leaf (Markup (tag (theme.title th) "Claude Message" +:+ " ("
                            +:+ tag (theme.role th) "unknown" +:+ ")")))
             th) in
      visualize_message returns message th =
        {| console := if returns panel then [panel] else [];
           raised := negb (returns panel) |}.
Proof.
  intros Hrole Hcontent Hmodel Hstop Husage.
  unfold parse_response. cbv zeta. rewrite Hmodel, Hstop.
  unfold or_empty_dict. rewrite Husage.
  unfold dict_get_default. rewrite Hrole, Hcontent. simpl.
  eexists _, _. split; [reflexivity|]. split; [reflexivity|].
  rewrite visualize_message_cases. simpl.
  by destruct (returns (PrintPanel _)).
Qed.

Lemma bare_response_shows_the_title_only_witness :
  ∃ raw message,
    parse_response (VDict [("id", VStr "msg_1"); ("usage", VNone)]) = Some raw
    ∧ checked_message raw = Some message
    ∧ visualize_message always_prints message DARK_THEME =
        {| console :=
             [PrintPanel
                (main_panel
                   (leaf (Markup (tag (theme.title DARK_THEME) "Claude Message" +:+ " ("
                                  +:+ tag (theme.role DARK_THEME) "unknown" +:+ ")")))
                   DARK_THEME)];
           raised := false |}.
Proof.
  apply (bare_response_shows_the_title_only always_prints
           [("id", VStr "msg_1"); ("usage", VNone)]);
    reflexivity.
Defined.

(** X12. A [content] that is a plain string is taken apart: the parsed
    message has one text block for each character of the string, in order,
    and not one block with the string. *)
Theorem string_content_is_parsed_per_character (d : pydict) (s : string) :
  dict_get d "content" = Some (VStr s) →
  ∃ raw,
    parse_response (VDict d) = Some raw
    ∧ List.length (raw_content raw) = String.length s
    ∧ ∀ i, raw_content raw !! i
           = (λ c, {| raw_type := VStr "text"; raw_data := [("text", VStr (String c ""))] |})
               <$> String.get i s.
Proof.
  intros Hcontent.
  destruct (parse_response_content d
              (map (λ c, VStr (String c "")) (list_ascii_of_string s)))
    as (raw & Hraw & Hblocks & _).
  { unfold dict_get_default. by rewrite Hcontent. }
  exists raw. split; [done|]. rewrite Hblocks. clear. split.
  - rewrite !length_map. induction s as [|c s IH]; simpl; by rewrite ?IH.
  - intros i. rewrite map_map. revert i.
    induction s as [|c s IH]; intros [|i]; simpl; done.
Qed.

Lemma string_content_is_parsed_per_character_witness :
  ∃ raw,
    parse_response (VDict user_turn) = Some raw
    ∧ raw_content raw =
        [{| raw_type := VStr "text"; raw_data := [("text", VStr "H")] |};
         {| raw_type := VStr "text"; raw_data := [("text", VStr "i")] |}].
Proof.
  destruct (string_content_is_parsed_per_character user_turn "Hi" eq_refl)
    as (raw & Hraw & _ & _).
  exists raw. split; [exact Hraw|].
  vm_compute in Hraw. injection Hraw as <-. reflexivity.
Defined.

(** X13. A block object without a [type] is taken for the kind "unknown",
    whatever other fields it has, a [text] included: it is shown by the
    fallback, with the JSON of the whole block. *)
Theorem untyped_block_is_shown_as_unknown (d : pydict) (tree : Tree) (th : ColorScheme) :
  dict_get d "type" = None →
  ∃ c, checked_content (parse_content_block (VDict d)) = Some c
    ∧ render_content_block c tree th = Some (add tree (unknown_node th "unknown" d)).
Proof.
  intros Htype. unfold parse_content_block, checked_content, dict_get_default.
  rewrite Htype. simpl. eexists. split; reflexivity.
Qed.

Lemma untyped_block_is_shown_as_unknown_witness :
  ∃ c, checked_content (parse_content_block (VDict [("text", VStr "hello")])) = Some c
    ∧ render_content_block c (leaf (Markup "Block 1")) DARK_THEME
      = Some (add (leaf (Markup "Block 1"))
                (unknown_node DARK_THEME "unknown" [("text", VStr "hello")])).
Proof.
  exact (untyped_block_is_shown_as_unknown [("text", VStr "hello")] (leaf (Markup "Block 1"))
           DARK_THEME eq_refl).
Defined.

(** X14. A block that is a bare string is shown exactly as the text block
    object with that string for its text. *)
Theorem bare_string_block_is_a_text_block (s : string) (d : pydict) (tree : Tree)
    (th : ColorScheme) :
  dict_get d "type" = Some (VStr "text") → dict_get d "text" = Some (VStr s) →
  ∃ c c',
    checked_content (parse_content_block (VStr s)) = Some c
    ∧ checked_content (parse_content_block (VDict d)) = Some c'
    ∧ render_content_block c tree th = render_content_block c' tree th.
Proof.
  intros Htype Htext. unfold parse_content_block, checked_content, dict_get_default.
  rewrite Htype. simpl. eexists _, _. split; [reflexivity|]. split; [reflexivity|].
  unfold render_content_block, render_text_content, dict_get_default. simpl.
  by rewrite Htext.
Qed.

Lemma bare_string_block_is_a_text_block_witness :
  ∃ c c',
    checked_content (parse_content_block (VStr "hi")) = Some c
    ∧ checked_content (parse_content_block (VDict (data (text_block "hi")))) = Some c'
    ∧ render_content_block c (leaf (Markup "Block 1")) DARK_THEME
      = render_content_block c' (leaf (Markup "Block 1")) DARK_THEME.
Proof.
  exact (bare_string_block_is_a_text_block "hi" (data (text_block "hi"))
           (leaf (Markup "Block 1")) DARK_THEME eq_refl eq_refl).
Defined.

(** X15. A block that is neither an object nor a string (null, a number, a
    boolean, a list) does not make the parser or the renderer raise: it is
    shown by the fallback as the kind "unknown", with its [str] under the
    key "raw". *)
Theorem scalar_block_is_shown_raw (block : value) (tree : Tree) (th : ColorScheme) :
  is_dict block = false → (∀ s, block ≠ VStr s) →
  ∃ c, checked_content (parse_content_block block) = Some c
    ∧ render_content_block c tree th =
        Some (add tree (unknown_node th "unknown" [("raw", VStr (py_str block))])).
Proof.
  intros Hdict Hstr.
  destruct block; try done; try (eexists; split; reflexivity).
  by destruct (Hstr s).
Qed.

Lemma scalar_block_is_shown_raw_witness :
  ∃ c, checked_content (parse_content_block (VInt 7)) = Some c
    ∧ render_content_block c (leaf (Markup "Block 1")) DARK_THEME =
        Some (add (leaf (Markup "Block 1"))
                (unknown_node DARK_THEME "unknown" [("raw", VStr "7")])).
Proof.
  apply (scalar_block_is_shown_raw (VInt 7)); [reflexivity|discriminate].
Defined.

(** ** The current theme *)

(** X16. The current theme is decided once: after [get_current_theme] has
    returned a scheme, every later call returns the same one and changes
    nothing, even when IPython has become importable or has ceased to be.
    Likewise, once a theme is set, a later [visualize_message] without a
    theme uses the scheme that theme stood for when it was set, and leaves
    the setting as it is. *)
Theorem current_theme_is_decided_once (ipython ipython' : bool)
    (_current_theme : option ColorScheme) (t : Theme) (returns : printed → bool)
    (message : ParsedMessage) :
  get_current_theme ipython' (snd (get_current_theme ipython _current_theme))
  = get_current_theme ipython _current_theme
  ∧ visualize_message_current returns message ipython' (set_theme ipython t _current_theme)
    = (visualize_message returns message (get_theme ipython t), Some (get_theme ipython t)).
Proof.
  split.
  - by destruct _current_theme.
  - reflexivity.
Qed.

(** ** The [visualize] object *)

Lemma show_all_returns (returns : value → bool) (rs : list value) :
  (∀ r, r ∈ rs → returns r = true) →
  hooks.show_all returns rs = (map hooks.Visualize rs, false).
Proof.
  induction rs as [|r rs IH]; intros H; simpl; [done|].
  rewrite (H r) by set_solver. rewrite IH; [done|]. intros r' Hr'. apply H. set_solver.
Qed.

(** X17. With [auto_show] on, a captured response is shown twice: at once
    by [capture], and again by [__exit__], which shows every response the
    object holds, in the order of capture. *)
Theorem captured_response_is_shown_twice (returns : value → bool) (self : hooks.visualize)
    (response : value) (timestamp : string) :
  hooks.auto_show self = true →
  (∀ r, r ∈ (hooks.responses self ++ [response])%list → returns r = true) →
  let captured := hooks.capture returns self response timestamp in
  hooks.Visualize response ∈ hooks.effects captured
  ∧ hooks.raised captured = false
  ∧ hooks.effects (hooks.__exit__ returns (hooks.self_after captured))
    = map hooks.Visualize (hooks.responses self ++ [response])%list
  ∧ hooks.raised (hooks.__exit__ returns (hooks.self_after captured)) = false.
Proof.
  intros Hshow Hreturns. cbv zeta. unfold hooks.capture. simpl. rewrite Hshow. simpl.
  split; [set_solver|]. split; [rewrite Hreturns; [done|set_solver]|].
  unfold hooks.__exit__. simpl. rewrite ?Hshow.
  rewrite (show_all_returns _ _ Hreturns).
  by destruct (hooks.responses self ++ [response])%list eqn:Hrs.
Qed.

Lemma captured_response_is_shown_twice_witness :
  let captured := hooks.capture always_returns (fresh_hook true) (VDict user_turn) "t" in
  hooks.effects captured = [hooks.Visualize (VDict user_turn)]
  ∧ hooks.effects (hooks.__exit__ always_returns (hooks.self_after captured))
    = [hooks.Visualize (VDict user_turn)].
Proof.
  destruct (captured_response_is_shown_twice always_returns (fresh_hook true)
              (VDict user_turn) "t" eq_refl (λ _ _, eq_refl))
    as (_ & _ & Hexit & _).
  split; [reflexivity|exact Hexit].
Defined.

(** X18. With [auto_show] off, which is how [capture_responses] makes its
    object, nothing is ever shown: [capture] keeps the response after those
    it has, has no effect but saving it, and leaves [auto_show] off; then
    [__exit__] does nothing; neither raises. *)
Theorem quiet_object_never_shows (returns : value → bool) (self : hooks.visualize)
    (response : value) (timestamp : string) :
  hooks.auto_show self = false →
  let captured := hooks.capture returns self response timestamp in
  (∀ r, hooks.Visualize r ∉ hooks.effects captured)
  ∧ hooks.raised captured = false
  ∧ hooks.responses (hooks.self_after captured) = (hooks.responses self ++ [response])%list
  ∧ hooks.auto_show (hooks.self_after captured) = false
  ∧ hooks.effects (hooks.__exit__ returns (hooks.self_after captured)) = []
  ∧ hooks.raised (hooks.__exit__ returns (hooks.self_after captured)) = false.
Proof.
  intros Hquiet. cbv zeta. unfold hooks.capture. simpl. rewrite Hquiet. simpl.
  split.
  - intros r Hin. destruct (hooks.save_to self) as [directory|];
      [|by apply elem_of_nil in Hin].
    destruct response; simpl in Hin; try (by apply elem_of_nil in Hin).
    apply list_elem_of_singleton in Hin. discriminate.
  - repeat split; try done; unfold hooks.__exit__; simpl; rewrite ?Hquiet;
      by destruct (hooks.responses self ++ [response])%list.
Qed.

Lemma quiet_object_never_shows_witness :
  let captured := hooks.capture always_returns (fresh_hook false) (VDict user_turn) "t" in
  hooks.responses (hooks.self_after captured) = [VDict user_turn]
  ∧ hooks.effects (hooks.__exit__ always_returns (hooks.self_after captured)) = [].
Proof.
  destruct (quiet_object_never_shows always_returns (fresh_hook false) (VDict user_turn) "t"
              eq_refl)
    as (_ & _ & Hkept & _ & Hexit & _).
  split; [exact Hkept|exact Hexit].
Defined.

(** X19. The decorator and the parser do not agree on what a response is.
    The decorator captures a result only when it is an object with both a
    [content] and a [role]: an object without [role] is passed over, with no
    effect, although [parse_response] takes it, with the role "unknown".
    What the decorator does capture, [parse_response] takes exactly when its
    [content] can be iterated. *)
Theorem decorator_passes_over_a_response_without_role (returns : value → bool)
    (self : hooks.visualize) (timestamp : string) :
  (∀ d, dict_get d "role" = None →
     iterable (dict_get_default d "content" (VList [])) = true →
     hooks.wrapper returns self (VDict d) timestamp
     = {| hooks.self_after := self; hooks.effects := []; hooks.raised := false |}
     ∧ ∃ raw, parse_response (VDict d) = Some raw ∧ raw_role raw = VStr "unknown")
  ∧ (∀ result,
       hooks._is_claude_response result = true →
       hooks.wrapper returns self result timestamp
       = hooks.capture returns self result timestamp
       ∧ ∃ d c, result = VDict d ∧ dict_get d "content" = Some c
           ∧ (is_Some (parse_response result) ↔ iterable c = true)).
Proof.
  split.
  - intros d Hrole Hiter. split.
    + unfold hooks.wrapper, hooks._is_claude_response. rewrite Hrole.
      rewrite (bool_decide_eq_false_2 (is_Some None)) by (by intros [? ?]).
      by rewrite andb_false_r.
    + unfold parse_response. cbv zeta.
      destruct (dict_get_default d "content" (VList [])); try done; simpl;
        eexists; (split; [reflexivity|]); unfold dict_get_default; by rewrite Hrole.
  - intros result Haccept. unfold hooks.wrapper. rewrite Haccept. split; [done|].
    destruct result as [| | | | | |d]; try done. simpl in Haccept.
    apply andb_true_iff in Haccept as [Hcontent _].
    apply bool_decide_eq_true in Hcontent as [c Hc]. exists d, c.
    split; [done|]. split; [done|].
    unfold parse_response, dict_get_default. cbv zeta. rewrite Hc. simpl.
    destruct c; simpl; split; try done; by intros [? ?].
Qed.

Lemma decorator_passes_over_a_response_without_role_witness :
  hooks.wrapper always_returns (fresh_hook true) (VDict [("content", VStr "Hi")]) "t"
  = {| hooks.self_after := fresh_hook true; hooks.effects := []; hooks.raised := false |}
  ∧ hooks.wrapper always_returns (fresh_hook true) (VDict user_turn) "t"
    = hooks.capture always_returns (fresh_hook true) (VDict user_turn) "t".
Proof.
  destruct (decorator_passes_over_a_response_without_role always_returns (fresh_hook true) "t")
    as [Hpassed Hcaptured].
  split.
  - exact (proj1 (Hpassed [("content", VStr "Hi")] eq_refl eq_refl)).
  - exact (proj1 (Hcaptured (VDict user_turn) eq_refl)).
Defined.

Lemma show_all_stops (returns : value → bool) (shown : list value) (r : value)
    (rest : list value) :
  (∀ r', r' ∈ shown → returns r' = true) → returns r = false →
  hooks.show_all returns (shown ++ r :: rest)
  = (map hooks.Visualize (shown ++ [r]), true).
Proof.
  intros Hshown Hr. induction shown as [|r' shown IH]; simpl.
  - by rewrite Hr.
  - rewrite (Hshown r') by set_solver. rewrite IH; [done|].
    intros r'' Hin. apply Hshown. set_solver.
Qed.

(** X20. A response whose display raises is kept all the same. With
    [auto_show] on, [capture] has appended it, and written it when a
    directory is set and it is an object, before it raises; so [__exit__]
    raises on it again, after showing once more the responses captured
    before it. *)
Theorem failed_response_is_kept (returns : value → bool) (self : hooks.visualize)
    (response : value) (timestamp : string) :
  hooks.auto_show self = true → returns response = false →
  let captured := hooks.capture returns self response timestamp in
  hooks.raised captured = true
  ∧ hooks.responses (hooks.self_after captured) = (hooks.responses self ++ [response])%list
  ∧ (∀ directory, hooks.save_to self = Some directory → is_dict response = true →
       hooks.effects captured
       = [hooks.WriteFile directory ("response_" +:+ timestamp +:+ ".json")
            (json_dumps response);
          hooks.Visualize response])
  ∧ hooks.raised (hooks.__exit__ returns (hooks.self_after captured)) = true
  ∧ ((∀ r, r ∈ hooks.responses self → returns r = true) →
     hooks.effects (hooks.__exit__ returns (hooks.self_after captured))
     = map hooks.Visualize (hooks.responses self ++ [response])%list).
Proof.
  intros Hshow Hfails. cbv zeta. unfold hooks.capture. simpl. rewrite Hshow. simpl.
  split; [by rewrite Hfails|]. split; [done|]. split.
  { intros directory -> Hdict. by destruct response. }
  unfold hooks.__exit__. simpl. rewrite ?Hshow.
  assert (Hraised : snd (hooks.show_all returns (hooks.responses self ++ [response])) = true).
  { induction (hooks.responses self) as [|r rs IH]; simpl.
    - by rewrite Hfails.
    - destruct (returns r); [|done].
      by destruct (hooks.show_all returns (rs ++ [response])). }
  split.
  - destruct (hooks.responses self ++ [response])%list eqn:Hrs.
    + by destruct (hooks.responses self).
    + by destruct (hooks.show_all returns (v :: l)).
  - intros Hbefore. rewrite (show_all_stops _ _ _ [] Hbefore Hfails).
    by destruct (hooks.responses self ++ [response])%list eqn:Hrs;
      [destruct (hooks.responses self)|].
Qed.

Lemma failed_response_is_kept_witness :
  let captured := hooks.capture is_dict (fresh_hook true) (VStr "oops") "t" in
  hooks.raised captured = true
  ∧ hooks.responses (hooks.self_after captured) = [VStr "oops"]
  ∧ hooks.raised (hooks.__exit__ is_dict (hooks.self_after captured)) = true.
Proof.
  destruct (failed_response_is_kept is_dict (fresh_hook true) (VStr "oops") "t"
              eq_refl eq_refl)
    as (Hraised & Hkept & _ & Hexit & _).
  split; [exact Hraised|]. split; [exact Hkept|exact Hexit].
Defined.
